(** * simpletimer: the [TicToc] stopwatch of [simpletimer.py]

    A shallow embedding of the class [TicToc] and of the module-level
    bindings [_tictoc], [tic] and [toc].  Methods are computations in a
    state-and-exception monad over the timer object, the wall clock and
    the process's standard output.  What Python supplies and the module
    only calls (float subtraction, [time.time], [str.format]) is gathered
    in the class [Platform]; what calling the caller's barrier does is
    given by the class [Interpreter]. *)

From Stdlib Require Import ZArith List String Ascii Bool Lia PeanoNat.
From Stdlib Require Import Floats DecimalString.
Import ListNotations.
Local Open Scope string_scope.
#[local] Set Warnings "-inexact-float".

(** ** Exceptions and results *)

(** A Python exception: its class name and its message. *)
Record exn := Exception { exc_class : string; exc_msg : string }.

Definition RuntimeError (m : string) : exn := Exception "RuntimeError" m.
Definition AttributeError (m : string) : exn := Exception "AttributeError" m.

Inductive result (A : Type) : Type :=
| Ok (a : A)
| Raise (e : exn).
Arguments Ok {A} a.
Arguments Raise {A} e.

(** ** What the interpreter provides *)

Class Platform : Type := {
  (** the values [time.time()] returns (Python floats) *)
  time : Type;
  (** [a - b] on those values *)
  tsub : time -> time -> time;
  (** [a <= b] on those values *)
  tle : time -> time -> Prop;
  (** [0.0] *)
  tzero : time;
  (** the wall clock: the [k]-th call of [time.time()] in the run returns
      [clock k] *)
  clock : nat -> time;
  (** [template.format(elapsed=x)] *)
  str_format : string -> time -> result string;
  (** the state of the collaborators (what a barrier synchronises on) *)
  Ext : Type
}.

(** The facts the ordering properties rest on: the wall clock does not go
    back, and on its readings subtraction keeps the order.  (They are
    stated on readings of the clock only: on floats they fail at the
    infinities and at NaN, which [time.time()] does not return.) *)
Record PlatformLaws (P : Platform) : Prop := {
  clock_mono : forall i j, i <= j -> tle (clock i) (clock j);
  tsub_nonneg : forall i j,
    tle (clock i) (clock j) -> tle tzero (tsub (clock j) (clock i));
  tsub_mono : forall i j k,
    tle (clock i) (clock j) ->
    tle (tsub (clock i) (clock k)) (tsub (clock j) (clock k))
}.

Section Timer.

Context {P : Platform}.

(** ** State *)

(** What the rest of the program owns: the standard output stream and
    the collaborators' state. *)
Record World := { stdout : string; ext : Ext }.

(** A zero-argument callable handed in by the caller, known by its
    name.  It is code of the caller's: what calling it does, to the
    world and to the timer it may hold, is for the interpreter to say
    ([invoke], below). *)
Definition callable := string.

(** An instance of [TicToc].  An attribute that [hasattr] does not find is
    [None]; [_msg] is a string or Python's [None]. *)
Record TicToc := {
  _msg : option string;
  _barrier : option callable;
  start_time : option time;
  end_time : option time
}.

(** The state a method runs in: the object bound to [self], the number of
    [time.time()] calls made so far, and the world. *)
Record State := { self : TicToc; ticks : nat; world : World }.

(** ** The monad of methods *)

Definition M (A : Type) : Type := State -> result A * State.

Definition ret {A} (a : A) : M A := fun s => (Ok a, s).
Definition raise {A} (e : exn) : M A := fun s => (Raise e, s).
Definition bind {A B} (m : M A) (f : A -> M B) : M B :=
  fun s => match m s with
           | (Ok a, s') => f a s'
           | (Raise e, s') => (Raise e, s')
           end.

Notation "x <- m ;; k" := (bind m (fun x => k))
  (at level 100, m at next level, right associativity).
Notation "m ;; k" := (bind m (fun _ => k))
  (at level 100, right associativity).

(** *** Primitive actions *)

Definition with_self (t : TicToc) (s : State) : State :=
  {| self := t; ticks := ticks s; world := world s |}.

(** Whether an attribute is there. *)
Definition present {A} (a : option A) : bool :=
  match a with
  | Some _ => true
  | None => false
  end.

(** [hasattr(self, 'start_time')] *)
Definition hasattr_start_time : M bool :=
  fun s => (Ok (present (start_time (self s))), s).

(** [hasattr(self, 'end_time')] *)
Definition hasattr_end_time : M bool :=
  fun s => (Ok (present (end_time (self s))), s).

(** [self.start_time] *)
Definition get_start_time : M time :=
  fun s => match start_time (self s) with
           | Some t => (Ok t, s)
           | None => (Raise (AttributeError "start_time"), s)
           end.

(** [self.end_time] *)
Definition get_end_time : M time :=
  fun s => match end_time (self s) with
           | Some t => (Ok t, s)
           | None => (Raise (AttributeError "end_time"), s)
           end.

(** The object with one attribute set ([Some v]) or deleted ([None]). *)
Definition set_start_time (v : option time) (t : TicToc) : TicToc :=
  {| _msg := _msg t; _barrier := _barrier t;
     start_time := v; end_time := end_time t |}.

Definition set_end_time (v : option time) (t : TicToc) : TicToc :=
  {| _msg := _msg t; _barrier := _barrier t;
     start_time := start_time t; end_time := v |}.

(** [self.start_time = v] and [del self.start_time] *)
Definition put_start_time (v : option time) : M unit :=
  fun s => (Ok tt, with_self (set_start_time v (self s)) s).

(** [self.end_time = v] and [del self.end_time] *)
Definition put_end_time (v : option time) : M unit :=
  fun s => (Ok tt, with_self (set_end_time v (self s)) s).

Definition get_msg : M (option string) := fun s => (Ok (_msg (self s)), s).
Definition get_barrier : M (option callable) :=
  fun s => (Ok (_barrier (self s)), s).

(** [time.time()]: the next reading of the wall clock. *)
Definition time_time : M time :=
  fun s => (Ok (clock (ticks s)),
            {| self := self s; ticks := S (ticks s); world := world s |}).

Definition with_world (w : World) (s : State) : State :=
  {| self := self s; ticks := ticks s; world := w |}.

(** What one call of a callable does: how it ends, the timer as it
    leaves it, the number of times it read the wall clock, and the world
    as it leaves it. *)
Record effect := {
  outcome : result unit;
  timer_left : TicToc;
  readings : nat;
  world_left : World
}.

(** The interpreter runs the caller's callables: [invoke f s] is what
    calling [f] does in the state [s]. *)
Class Interpreter : Type := {
  invoke : callable -> State -> effect
}.

Context {I : Interpreter}.

(** Calling a callable of the caller's. *)
Definition call (f : callable) : M unit :=
  fun s => (outcome (invoke f s),
            {| self := timer_left (invoke f s);
               ticks := readings (invoke f s) + ticks s;
               world := world_left (invoke f s) |}).

(** What [sys.stdout.write(x)] does to the world. *)
Definition write (x : string) (w : World) : World :=
  {| stdout := stdout w ++ x; ext := ext w |}.

(** [print(x, end='')]: [x] goes to standard output as it is. *)
Definition print_end_empty (x : string) : M unit :=
  fun s => (Ok tt, with_world (write x (world s)) s).

(** [template.format(elapsed=x)] *)
Definition format (template : string) (x : time) : M string :=
  fun s => match str_format template x with
           | Ok r => (Ok r, s)
           | Raise e => (Raise e, s)
           end.

(** Truth value of [self._msg]: [None] and the empty string are false. *)
Definition truthy (m : option string) : option string :=
  match m with
  | Some "" => None
  | Some t => Some t
  | None => None
  end.

(** [x.rstrip('\n')] *)
Definition newline : ascii := "010"%char.

Fixpoint rstrip_nl (x : string) : string :=
  match x with
  | EmptyString => EmptyString
  | String c r =>
      match rstrip_nl r with
      | EmptyString => if Ascii.eqb c newline then EmptyString
                       else String c EmptyString
      | r' => String c r'
      end
  end.

(** The last character of a string, if it has one. *)
Fixpoint last_char (x : string) : option ascii :=
  match x with
  | EmptyString => None
  | String c r =>
      match last_char r with
      | None => Some c
      | Some l => Some l
      end
  end.

(** [k] newlines. *)
Fixpoint newlines (k : nat) : string :=
  match k with
  | O => EmptyString
  | S k' => String newline (newlines k')
  end.

(** ** The class *)

Definition default_msg : string :=
  "Elapsed time is {elapsed:f} seconds." ++ String newline EmptyString.

Definition not_started : string := "Timer not yet started.".

(** [TicToc(msg, barrier)] *)
Definition __init__ (msg : option string) (barrier : option callable)
  : TicToc :=
  {| _msg := msg; _barrier := barrier;
     start_time := None; end_time := None |}.

Definition reset : M unit :=
  b <- hasattr_start_time ;;
  (if b then put_start_time None else ret tt) ;;
  b' <- hasattr_end_time ;;
  if b' then put_end_time None else ret tt.

Definition call_barrier : M unit :=
  b <- get_barrier ;;
  match b with
  | Some f => call f
  | None => ret tt
  end.

Definition tic : M unit :=
  reset ;;
  call_barrier ;;
  now <- time_time ;;
  put_start_time (Some now).

Definition is_started : M bool := hasattr_start_time.
Definition is_ended : M bool := hasattr_end_time.

Definition elapsed : M time :=
  started <- is_started ;;
  if negb started then raise (RuntimeError not_started)
  else
    ended <- is_ended ;;
    if ended then
      e <- get_end_time ;;
      b <- get_start_time ;;
      ret (tsub e b)
    else
      now <- time_time ;;
      b <- get_start_time ;;
      ret (tsub now b).

Definition toc : M unit :=
  started <- is_started ;;
  if negb started then raise (RuntimeError not_started)
  else
    call_barrier ;;
    now <- time_time ;;
    put_end_time (Some now) ;;
    m <- get_msg ;;
    match truthy m with
    | Some template =>
        x <- elapsed ;;
        r <- format template x ;;
        print_end_empty r
    | None => ret tt
    end.

Definition __float__ : M time := elapsed.

Definition __str__ : M string :=
  started <- is_started ;;
  if started then
    x <- elapsed ;;
    r <- format default_msg x ;;
    ret (rstrip_nl r)
  else ret not_started.

(** The object a method hands back when it returns [self]. *)
Inductive object := self_object.

Definition __enter__ : M object :=
  tic ;;
  ret self_object.

(** [__exit__] returns nothing, that is [None]. *)
Definition __exit__ (raised : option exn) : M unit :=
  toc.

(** ** The [with] statement

    [with timer: body].  [__exit__] runs on both exits of the body;
    as it answers [None], which is false, an exception of the body is
    raised again once [__exit__] has returned. *)
Definition with_statement {A} (body : object -> M A) : M A :=
  fun s =>
    match __enter__ s with
    | (Raise e, s1) => (Raise e, s1)
    | (Ok o, s1) =>
        match body o s1 with
        | (Ok a, s2) =>
            match __exit__ None s2 with
            | (Ok _, s3) => (Ok a, s3)
            | (Raise e', s3) => (Raise e', s3)
            end
        | (Raise e, s2) =>
            match __exit__ (Some e) s2 with
            | (Ok _, s3) => (Raise e, s3)
            | (Raise e', s3) => (Raise e', s3)
            end
        end
    end.

End Timer.

Arguments World P : clear implicits.
Arguments TicToc P : clear implicits.
Arguments State P : clear implicits.
Arguments effect P : clear implicits.
Arguments Interpreter P : clear implicits.

(** ** The module

    [_tictoc = TicToc()], [tic = _tictoc.tic], [toc = _tictoc.toc]: the
    two functions are the bound methods of the one instance made when
    the module is loaded; they run in the state whose [self] is that
    instance. *)
Module simpletimer.

Definition _tictoc {P : Platform} : TicToc P :=
  __init__ (Some default_msg) None.

Definition tic {P : Platform} {I : Interpreter P} : M unit := tic.
Definition toc {P : Platform} {I : Interpreter P} : M unit := toc.

(** The process right after [import simpletimer]. *)
Definition loaded {P : Platform} (n : nat) (w : World P) : State P :=
  {| self := _tictoc; ticks := n; world := w |}.

End simpletimer.

(** ** Runs of public operations *)

(** The public operations of a timer, and what the rest of the program
    does in between: [elsewhere n w] stands for code that reads the wall
    clock [n] times and leaves the world as [w]. *)
Inductive operation {P : Platform} : Type :=
| call_reset
| call_tic
| call_toc
| read_elapsed
| read_is_started
| read_is_ended
| call_float
| call_str
| call_enter
| call_exit (raised : option exn)
| elsewhere (n : nat) (w : World P).

(** The state an operation leaves, whether it returned or raised. *)
Definition leaves {P : Platform} {A} (m : M A) (s : State P) : State P :=
  snd (m s).

Definition perform {P : Platform} {I : Interpreter P} (o : operation)
  (s : State P) : State P :=
  match o with
  | call_reset => leaves reset s
  | call_tic => leaves tic s
  | call_toc => leaves toc s
  | read_elapsed => leaves elapsed s
  | read_is_started => leaves is_started s
  | read_is_ended => leaves is_ended s
  | call_float => leaves __float__ s
  | call_str => leaves __str__ s
  | call_enter => leaves __enter__ s
  | call_exit e => leaves (__exit__ e) s
  | elsewhere n w => {| self := self s; ticks := n + ticks s; world := w |}
  end.

Definition run {P : Platform} {I : Interpreter P} (ops : list operation)
  (s : State P) : State P :=
  fold_left (fun s o => perform o s) ops s.

(** The three states of a timer, read off the two attributes. *)
Inductive phase := Idle | Running | Stopped.

Definition phase_of {P : Platform} (t : TicToc P) : phase :=
  match start_time t, end_time t with
  | None, _ => Idle
  | Some _, None => Running
  | Some _, Some _ => Stopped
  end.

(** ** A model of [str.format] and two platforms

    Python's [template.format(elapsed=x)] for the templates this module is
    used with: literal text, the escapes [{{] and [}}], and replacement
    fields [{elapsed:f}], [{elapsed:W.Pf}], [{elapsed:Wf}] and
    [{elapsed:.Pf}] (width [W] without a leading zero, precision [P], six
    when left out).  A float is rendered from its exact value, rounded
    half to even at the last digit kept, and padded with spaces on the
    left up to the width.  Templates outside this fragment have no
    rendering here. *)
Module PyFormat.

(** The exact value of a float: [(-1)^neg * num / den], an infinity or a
    NaN. *)
Inductive number :=
| Finite (neg : bool) (num : N) (den : positive)
| Infinite (neg : bool)
| NotANumber.

Definition of_spec_float (f : spec_float) : number :=
  match f with
  | S754_zero s => Finite s 0 1
  | S754_infinity s => Infinite s
  | S754_nan => NotANumber
  | S754_finite s m (Zpos e) => Finite s (Npos m * 2 ^ Npos e) 1
  | S754_finite s m Z0 => Finite s (Npos m) 1
  | S754_finite s m (Zneg e) => Finite s (Npos m) (2 ^ e)
  end.

Definition of_float (x : float) : number := of_spec_float (Prim2SF x).

Definition of_Z (z : Z) : number := Finite (z <? 0)%Z (Z.abs_N z) 1.

(** *** Templates *)

Inductive piece :=
| Literal (c : ascii)
| Fixed (width precision : nat).

Definition digit_of (c : ascii) : option nat :=
  let n := nat_of_ascii c in
  if ((48 <=? n) && (n <=? 57))%nat then Some (n - 48) else None.

(** The decimal number a string starts with, and the rest. *)
Fixpoint leading_number (acc : nat) (t : string) : nat * string :=
  match t with
  | EmptyString => (acc, EmptyString)
  | String c r =>
      match digit_of c with
      | Some d => leading_number (10 * acc + d) r
      | None => (acc, t)
      end
  end.

Definition starts_with_digit (t : string) : bool :=
  match t with
  | String c _ => present (digit_of c)
  | EmptyString => false
  end.

(** [W.Pf], [Wf], [.Pf] or [f]. *)
Definition parse_spec (t : string) : option piece :=
  if prefix "0" t then None
  else
    let (w, r) := leading_number 0 t in
    match r with
    | String "." r' =>
        if starts_with_digit r' then
          let (p, r'') := leading_number 0 r' in
          if String.eqb r'' "f" then Some (Fixed w p) else None
        else None
    | _ => if String.eqb r "f" then Some (Fixed w 6) else None
    end.

Definition parse_field (t : string) : option piece :=
  if prefix "elapsed:" t then parse_spec (substring 8 (length t - 8) t)
  else None.

Inductive mode :=
| Text
| Opened
| Field (seen : string)
| Closed.

Fixpoint parse (m : mode) (t : string) : option (list piece) :=
  match t with
  | EmptyString =>
      match m with
      | Text => Some []
      | _ => None
      end
  | String c r =>
      match m with
      | Text =>
          if Ascii.eqb c "{" then parse Opened r
          else if Ascii.eqb c "}" then parse Closed r
          else option_map (cons (Literal c)) (parse Text r)
      | Opened =>
          if Ascii.eqb c "{" then option_map (cons (Literal c)) (parse Text r)
          else if Ascii.eqb c "}" then None
          else parse (Field (String c EmptyString)) r
      | Field seen =>
          if Ascii.eqb c "}" then
            match parse_field seen with
            | Some p => option_map (cons p) (parse Text r)
            | None => None
            end
          else if Ascii.eqb c "{" then None
          else parse (Field (seen ++ String c EmptyString)) r
      | Closed =>
          if Ascii.eqb c "}" then option_map (cons (Literal c)) (parse Text r)
          else None
      end
  end.

(** *** Rendering *)

Definition round_half_even (num : N) (den : positive) : N :=
  let q := (num / Npos den)%N in
  let r := (num mod Npos den)%N in
  match (2 * r ?= Npos den)%N with
  | Lt => q
  | Gt => (q + 1)%N
  | Eq => if N.even q then q else (q + 1)%N
  end.

Definition decimal (n : N) : string :=
  NilZero.string_of_uint (N.to_uint n).

Fixpoint repeat_char (c : ascii) (n : nat) : string :=
  match n with
  | O => EmptyString
  | S k => String c (repeat_char c k)
  end.

Definition pad_left (c : ascii) (width : nat) (t : string) : string :=
  repeat_char c (width - length t) ++ t.

Definition fixed (neg : bool) (num : N) (den : positive) (p : nat)
  : string :=
  let n := round_half_even (num * 10 ^ N.of_nat p) den in
  let d := pad_left "0" (S p) (decimal n) in
  let k := length d - p in
  (if neg then "-" else "")
  ++ substring 0 k d
  ++ (if Nat.eqb p 0 then "" else "." ++ substring k p d).

Definition render_number (x : number) (p : nat) : string :=
  match x with
  | Finite neg num den => fixed neg num den p
  | Infinite neg => if neg then "-inf" else "inf"
  | NotANumber => "nan"
  end.

Definition render_piece (x : number) (pc : piece) : string :=
  match pc with
  | Literal c => String c EmptyString
  | Fixed w p => pad_left " " w (render_number x p)
  end.

Definition render (x : number) (ps : list piece) : string :=
  String.concat "" (map (render_piece x) ps).

Definition py_format (template : string) (x : number) : option string :=
  option_map (render x) (parse Text template).

(** As a [str_format]: a template outside the fragment is refused. *)
Definition within_fragment (template : string) (r : option string)
  : result string :=
  match r with
  | Some t => Ok t
  | None => Raise (Exception "NotModelled" template)
  end.

End PyFormat.

(** Python's floats (IEEE 754 binary64) with a given wall clock; the
    collaborators' state is a counter. *)
Definition FloatPlatform (wall : nat -> float) : Platform :=
  {| time := float;
     tsub := PrimFloat.sub;
     tle := fun a b => PrimFloat.leb a b = true;
     tzero := 0%float;
     clock := wall;
     str_format := fun t x =>
       PyFormat.within_fragment t (PyFormat.py_format t (PyFormat.of_float x));
     Ext := nat |}.

(** A clock that counts whole seconds exactly. *)
Definition ExactPlatform (wall : nat -> Z) : Platform :=
  {| time := Z;
     tsub := Z.sub;
     tle := Z.le;
     tzero := 0%Z;
     clock := wall;
     str_format := fun t x =>
       PyFormat.within_fragment t (PyFormat.py_format t (PyFormat.of_Z x));
     Ext := nat |}.

(** ** States named in the properties *)

Section Outcomes.

Context {P : Platform} {I : Interpreter P}.

(** The timer with both samples deleted. *)
Definition cleared (t : TicToc P) : TicToc P :=
  __init__ (_msg t) (_barrier t).

(** The state [tic] calls the barrier in: both samples are deleted. *)
Definition emptied (s : State P) : State P :=
  with_self (cleared (self s)) s.

(** The state a [tic] that returns reaches from the state [s1] the
    barrier left: the clock has been read once more and the reading is
    [start_time]. *)
Definition sampled (s1 : State P) : State P :=
  {| self := set_start_time (Some (clock (ticks s1))) (self s1);
     ticks := S (ticks s1);
     world := world s1 |}.

(** The state a [tic] that returns reaches when the barrier, if there is
    one, has only changed the world, to [w]: the samples are gone and
    the clock has been read once. *)
Definition started (s : State P) (w : World P) : State P :=
  {| self := set_start_time (Some (clock (ticks s))) (cleared (self s));
     ticks := S (ticks s);
     world := w |}.

(** The state [toc] reaches before it reports, from a state [s] and a
    world [w] left by the barrier: the clock has been read once and the
    reading is [end_time]. *)
Definition stopped (s : State P) (w : World P) : State P :=
  {| self := set_end_time (Some (clock (ticks s))) (self s);
     ticks := S (ticks s);
     world := w |}.

(** The state a [toc] that returns leaves, from the state [s1] the
    barrier left: the report, if the template asks for one, is the last
    thing on standard output. *)
Definition stopped_and_reported (s1 s' : State P) : Prop :=
  match truthy (_msg (self s1)) with
  | Some template =>
      exists b r,
        start_time (self s1) = Some b
        /\ str_format template (tsub (clock (ticks s1)) b) = Ok r
        /\ s' = stopped s1 (write r (world s1))
  | None => s' = stopped s1 (world s1)
  end.

(** What [toc] does once the barrier has returned, leaving [s1]. *)
Definition report (s1 : State P) : result unit * State P :=
  match truthy (_msg (self s1)) with
  | Some t =>
      match start_time (self s1) with
      | Some b =>
          match str_format t (tsub (clock (ticks s1)) b) with
          | Ok r => (Ok tt, stopped s1 (write r (world s1)))
          | Raise e => (Raise e, stopped s1 (world s1))
          end
      | None => (Raise (RuntimeError not_started), stopped s1 (world s1))
      end
  | None => (Ok tt, stopped s1 (world s1))
  end.

(** Where the samples of a timer come from: each is a reading of the
    wall clock already taken, [start_time] not after [end_time], and
    there is no [end_time] without a [start_time]. *)
Definition well_sampled (s : State P) : Prop :=
  match start_time (self s), end_time (self s) with
  | Some b, Some e =>
      exists i j, b = clock i /\ e = clock j /\ i <= j /\ j < ticks s
  | Some b, None => exists i, b = clock i /\ i < ticks s
  | None, Some _ => False
  | None, None => True
  end.

(** ** Barriers that keep to themselves *)

(** A callable that leaves the timer as it finds it, in whatever state
    it is called. *)
Definition hands_off (f : callable) : Prop :=
  forall s, timer_left (invoke f s) = self s.

(** The barrier of a timer, if it has one, leaves the timer alone. *)
Definition barrier_hands_off (barrier : option callable) : Prop :=
  forall f, barrier = Some f -> hands_off f.

(** A callable that does not assign the timer's [_msg] and [_barrier]. *)
Definition keeps_configuration (f : callable) : Prop :=
  forall s,
    _msg (timer_left (invoke f s)) = _msg (self s)
    /\ _barrier (timer_left (invoke f s)) = _barrier (self s).

End Outcomes.

(** ** Operations by kind, and what they raise *)

(** The operations that only ask: the elapsed-time property, the two
    status properties and the two conversions. *)
Definition read_only {P : Platform} (o : operation) : bool :=
  match o with
  | read_elapsed | read_is_started | read_is_ended
  | call_float | call_str => true
  | _ => false
  end.

Definition exception_of {A} (r : result A) : option exn :=
  match r with
  | Ok _ => None
  | Raise e => Some e
  end.

(** The exception a public operation ends with, if it raises. *)
Definition raised_by {P : Platform} {I : Interpreter P} (o : operation)
  (s : State P) : option exn :=
  match o with
  | call_reset => exception_of (fst (reset s))
  | call_tic => exception_of (fst (tic s))
  | call_toc => exception_of (fst (toc s))
  | read_elapsed => exception_of (fst (elapsed s))
  | read_is_started => exception_of (fst (is_started s))
  | read_is_ended => exception_of (fst (is_ended s))
  | call_float => exception_of (fst (__float__ s))
  | call_str => exception_of (fst (__str__ s))
  | call_enter => exception_of (fst (__enter__ s))
  | call_exit e => exception_of (fst (__exit__ e s))
  | elsewhere _ _ => None
  end.

(** The state in which an operation calls the barrier: [tic] and
    [__enter__] have deleted the samples by then. *)
Definition barrier_state {P : Platform} (o : operation) (s : State P)
  : State P :=
  match o with
  | call_tic | call_enter => emptied s
  | _ => s
  end.

(** Whether the barrier, called in this state, raises. *)
Definition barrier_raises {P : Platform} {I : Interpreter P} (s : State P)
  : bool :=
  match fst (call_barrier s) with
  | Ok _ => false
  | Raise _ => true
  end.

(** The state of a timer after one operation, from its state before and
    from whether the barrier raised, for a barrier that leaves the timer
    alone. *)
Definition next_phase {P : Platform} (o : operation) (before : phase)
  (barrier_raised : bool) : phase :=
  match o with
  | call_reset => Idle
  | call_tic | call_enter => if barrier_raised then Idle else Running
  | call_toc | call_exit _ =>
      match before with
      | Idle => Idle
      | Running => if barrier_raised then Running else Stopped
      | Stopped => Stopped
      end
  | read_elapsed | read_is_started | read_is_ended | call_float | call_str
  | elsewhere _ _ => before
  end.

(** The sources of the exceptions of the public operations: there is no
    [start_time], when the operation is called or when the barrier has
    returned; the barrier raised; or [str.format] raised on the timer's
    template or on the default message. *)
Definition from_a_source {P : Platform} {I : Interpreter P} (s : State P)
  (e : exn) : Prop :=
  (e = RuntimeError "Timer not yet started."
   /\ (start_time (self s) = None
       \/ exists s1, call_barrier s = (Ok tt, s1)
                     /\ start_time (self s1) = None))
  \/ (exists s', (s' = s \/ s' = emptied s)
                 /\ fst (call_barrier s') = Raise e)
  \/ (exists s1 t x,
        (s1 = s \/ call_barrier s = (Ok tt, s1))
        /\ (truthy (_msg (self s1)) = Some t \/ t = default_msg)
        /\ str_format t x = Raise e).

(** ** A sample run-time environment

    A wall clock that shows whole seconds and advances by two seconds
    from one reading to the next, and callables of several kinds: two
    that keep to themselves (a barrier that counts the rendezvous and
    one that fails) and four that hold the timer. *)
Definition seconds (k : nat) : Z := (1700000000 + 2 * Z.of_nat k)%Z.

Definition Exact : Platform := ExactPlatform seconds.

Definition quiet : World Exact := @Build_World Exact "" 0.

Definition MPIError : exn := Exception "MPIError" "rank lost".

(** What running a piece of code that holds the timer amounts to, as
    the effect of one call. *)
Definition effect_of {P : Platform} (m : M unit) (s : State P) : effect P :=
  {| outcome := fst (m s);
     timer_left := self (snd (m s));
     readings := ticks (snd (m s)) - ticks s;
     world_left := world (snd (m s)) |}.

(** An interpreter in which every callable returns at once. *)
Definition no_callables {P : Platform} : Interpreter P :=
  {| invoke := fun _ s =>
       {| outcome := Ok tt; timer_left := self s;
          readings := 0; world_left := world s |} |}.

(** The world after one more arrival at the rendezvous. *)
Definition arrive (w : World Exact) : World Exact :=
  @Build_World Exact (stdout w) (S (ext w)).

Definition rendezvous : callable := "rendezvous".
Definition broken : callable := "broken".

(** [lambda: t.reset()] *)
Definition resets : callable := "resets".

(** A barrier that calls [t.reset()] and then raises. *)
Definition resets_and_fails : callable := "resets_and_fails".

(** A barrier that, the first time it is called, runs [t.tic()] and
    [t.toc()] on the timer it belongs to; called again (as it is from
    within those two) it returns at once. *)
Definition reenters : callable := "reenters".

(** A barrier that, the first time it is called, runs [t.tic()] and then
    raises; called again it returns at once. *)
Definition restarts_and_fails : callable := "restarts_and_fails".

Definition Calls : Interpreter Exact :=
  {| invoke := fun f s =>
       if String.eqb f rendezvous then
         {| outcome := Ok tt; timer_left := self s;
            readings := 0; world_left := arrive (world s) |}
       else if String.eqb f broken then
         {| outcome := Raise MPIError; timer_left := self s;
            readings := 0; world_left := arrive (world s) |}
       else if String.eqb f resets then effect_of reset s
       else if String.eqb f resets_and_fails then
         effect_of (bind reset (fun _ => raise MPIError)) s
       else if String.eqb f reenters then
         if Nat.eqb (ext (world s)) 0 then
           effect_of (bind (tic (I := no_callables))
                        (fun _ => toc (I := no_callables)))
             (with_world (arrive (world s)) s)
         else invoke (Interpreter := no_callables) f s
       else if String.eqb f restarts_and_fails then
         if Nat.eqb (ext (world s)) 0 then
           effect_of (bind (tic (I := no_callables))
                        (fun _ => raise MPIError))
             (with_world (arrive (world s)) s)
         else invoke (Interpreter := no_callables) f s
       else invoke (Interpreter := no_callables) f s |}.

(** The wall clock of the docstring's third example, read at one second
    and at 3.002 seconds, on Python's floats. *)
Definition docstring_wall (k : nat) : float :=
  match k with
  | O => 1%float
  | S _ => 3.002%float
  end.

Definition Docstring : Platform := FloatPlatform docstring_wall.

Definition docstring_template : string :=
  "{elapsed:7.3f}" ++ String newline "".

Definition docstring_start : State Docstring :=
  {| self := __init__ (Some docstring_template) None;
     ticks := 0;
     world := @Build_World Docstring "" 0 |}.

(** The timer of the docstring's example once entered. *)
Definition docstring_running : State Docstring :=
  snd (tic (I := no_callables) docstring_start).

(** A body of a [with] statement that raises. *)
Definition ZeroDivisionError : exn :=
  Exception "ZeroDivisionError" "division by zero".

Definition failing_body : object -> M nat (P := Exact) :=
  fun _ => raise ZeroDivisionError.

(** A body that calls [t.reset()] and then raises. *)
Definition resetting_body : object -> M nat (P := Exact) :=
  fun _ => bind reset (fun _ => raise ZeroDivisionError).

(** A session: start, let other code read the clock twice, stop, then
    ask twice for the elapsed time and once for the string. *)
Definition session : list (operation (P := Exact)) :=
  [call_tic; elsewhere 2 quiet;
   call_toc; read_elapsed; call_str; read_elapsed].

(** The docstring's third example as a run: enter, leave, and look at
    the timer afterwards. *)
Definition docstring_session : list (operation (P := Docstring)) :=
  [call_enter; call_exit None; read_elapsed; call_str].

(** A timer of the sample environment with the given samples. *)
Definition sample_timer (msg : option string) (barrier : option callable)
  (b e : option Z) : TicToc Exact :=
  @Build_TicToc Exact msg barrier b e.

(** A new timer of the sample environment, before any reading of the
    clock. *)
Definition new_timer (msg : option string) (barrier : option callable)
  : State Exact :=
  {| self := __init__ msg barrier; ticks := 0; world := quiet |}.

(** A timer of the sample environment started at the first reading. *)
Definition running_timer (msg : option string) (barrier : option callable)
  : State Exact :=
  {| self := sample_timer msg barrier (Some 1700000000%Z) None;
     ticks := 1; world := quiet |}.




(** A body of a [with] statement that lets the clock be read three times
    and returns a value; it does not touch the timer. *)
Definition working_body : object -> M nat (P := Exact) :=
  fun _ s => (Ok 42, @Build_State Exact (self s) (3 + ticks s) (world s)).

(** Asking a stopped timer a few questions. *)
Definition questions : list (operation (P := Exact)) :=
  [read_elapsed; call_str; read_is_ended; call_float; read_is_started].

(** * Properties *)

(** ** The model of [str.format] on the docstring's example *)

Example format_docstring :
  PyFormat.py_format ("{elapsed:7.3f}" ++ String newline "")
    (PyFormat.of_float 2.002%float)
  = Some ("  2.002" ++ String newline "").
Proof. vm_compute. reflexivity. Qed.

(** ** What each method computes *)

Section Methods.

Context {P : Platform} {I : Interpreter P}.

Lemma state_eta (s : State P) :
  {| self := self s; ticks := ticks s; world := world s |} = s.
Proof. destruct s; reflexivity. Qed.

Lemma timer_eta (t : TicToc P) :
  {| _msg := _msg t; _barrier := _barrier t;
     start_time := start_time t; end_time := end_time t |} = t.
Proof. destruct t; reflexivity. Qed.

Lemma with_world_same (s : State P) : with_world (world s) s = s.
Proof. apply state_eta. Qed.

Lemma reset_spec (s : State P) : reset s = (Ok tt, emptied s).
Proof.
  destruct s as [[m b st en] n w].
  destruct st, en; reflexivity.
Qed.

Lemma call_barrier_spec (s : State P) :
  call_barrier s =
  match _barrier (self s) with
  | Some f => call f s
  | None => (Ok tt, s)
  end.
Proof.
  unfold call_barrier, bind, get_barrier.
  destruct (_barrier (self s)); reflexivity.
Qed.

(** A barrier cannot undo readings of the clock. *)
Lemma call_barrier_ticks (s s1 : State P) (r : result unit) :
  call_barrier s = (r, s1) -> ticks s <= ticks s1.
Proof.
  rewrite call_barrier_spec.
  destruct (_barrier (self s)) as [f|]; intros [= <- <-]; cbn; lia.
Qed.

(** A barrier that keeps to itself leaves the timer as it is. *)
Lemma call_barrier_hands_off (s s1 : State P) (r : result unit) :
  barrier_hands_off (_barrier (self s)) ->
  call_barrier s = (r, s1) -> self s1 = self s.
Proof.
  intros H. rewrite call_barrier_spec.
  destruct (_barrier (self s)) as [f|] eqn:B; intros [= <- <-];
    [|reflexivity].
  apply (H f eq_refl).
Qed.

Lemma call_no_barrier (s : State P) :
  _barrier (self s) = None -> call_barrier s = (Ok tt, s).
Proof. intros H. rewrite call_barrier_spec, H. reflexivity. Qed.

Lemma tic_spec (s : State P) :
  tic s =
  match call_barrier (emptied s) with
  | (Ok _, s1) => (Ok tt, sampled s1)
  | (Raise e, s1) => (Raise e, s1)
  end.
Proof.
  unfold tic, bind. rewrite reset_spec.
  destruct (call_barrier (emptied s)) as [[u|e] s1]; reflexivity.
Qed.

Lemma tic_returns (s s' : State P) :
  tic s = (Ok tt, s') ->
  exists s1, call_barrier (emptied s) = (Ok tt, s1) /\ s' = sampled s1.
Proof.
  rewrite tic_spec.
  destruct (call_barrier (emptied s)) as [[[]|e] s1]; intros [= <-].
  exists s1. auto.
Qed.

Lemma tic_no_barrier (s : State P) :
  _barrier (self s) = None -> tic s = (Ok tt, started s (world s)).
Proof.
  intros H. rewrite tic_spec, call_no_barrier by exact H. reflexivity.
Qed.

Lemma elapsed_spec (s : State P) :
  elapsed s =
  match start_time (self s), end_time (self s) with
  | None, _ => (Raise (RuntimeError not_started), s)
  | Some b, Some e => (Ok (tsub e b), s)
  | Some b, None =>
      (Ok (tsub (clock (ticks s)) b),
       {| self := self s; ticks := S (ticks s); world := world s |})
  end.
Proof.
  destruct s as [[m f st en] n w].
  destruct st, en; reflexivity.
Qed.

Lemma toc_spec (s : State P) :
  toc s =
  match start_time (self s) with
  | None => (Raise (RuntimeError not_started), s)
  | Some _ =>
      match call_barrier s with
      | (Ok _, s1) => report s1
      | (Raise e, s1) => (Raise e, s1)
      end
  end.
Proof.
  unfold toc, bind, is_started, hasattr_start_time.
  destruct (start_time (self s)) as [b|] eqn:St; cbn [present negb];
    [|reflexivity].
  destruct (call_barrier s) as [[u|e] s1]; [|reflexivity].
  unfold report, get_msg, time_time, put_end_time.
  cbn [self ticks world with_self set_end_time _msg].
  destruct (truthy (_msg (self s1))) as [t|]; [|reflexivity].
  rewrite elapsed_spec.
  cbn [self ticks world with_self set_end_time start_time end_time].
  destruct (start_time (self s1)) as [b1|]; [|reflexivity].
  unfold format, print_end_empty.
  destruct (str_format t (tsub (clock (ticks s1)) b1)); reflexivity.
Qed.

Lemma report_returns (s1 s' : State P) :
  report s1 = (Ok tt, s') ->
  self s' = set_end_time (Some (clock (ticks s1))) (self s1)
  /\ ticks s' = S (ticks s1).
Proof.
  unfold report.
  destruct (truthy (_msg (self s1))) as [t|].
  - destruct (start_time (self s1)) as [b|]; [|discriminate].
    destruct (str_format t (tsub (clock (ticks s1)) b));
      intros [= <-]; split; reflexivity.
  - intros [= <-]; split; reflexivity.
Qed.

Lemma toc_returns (s s' : State P) :
  toc s = (Ok tt, s') ->
  exists b s1,
    start_time (self s) = Some b
    /\ call_barrier s = (Ok tt, s1)
    /\ self s' = set_end_time (Some (clock (ticks s1))) (self s1)
    /\ ticks s' = S (ticks s1).
Proof.
  rewrite toc_spec.
  destruct (start_time (self s)) as [b|]; [|discriminate].
  destruct (call_barrier s) as [[[]|e] s1]; [|discriminate].
  intros H. exists b, s1. split; [reflexivity|]. split; [reflexivity|].
  exact (report_returns _ _ H).
Qed.

Lemma toc_returns_iff (s s' : State P) :
  toc s = (Ok tt, s') <->
  exists b s1,
    start_time (self s) = Some b
    /\ call_barrier s = (Ok tt, s1)
    /\ stopped_and_reported s1 s'.
Proof.
  rewrite toc_spec. unfold stopped_and_reported, report. split.
  - destruct (start_time (self s)) as [b|]; [|discriminate].
    destruct (call_barrier s) as [[[]|e] s1]; [|discriminate].
    intros H. exists b, s1.
    split; [reflexivity|]. split; [reflexivity|].
    destruct (truthy (_msg (self s1))) as [t|].
    + destruct (start_time (self s1)) as [b1|]; [|discriminate].
      destruct (str_format t (tsub (clock (ticks s1)) b1)) as [r|e] eqn:F;
        [|discriminate].
      exists b1, r. split; [reflexivity|]. split; [exact F|]. congruence.
    + congruence.
  - intros (b & s1 & -> & -> & H).
    destruct (truthy (_msg (self s1))) as [t|].
    + destruct H as (b1 & r & -> & -> & ->). reflexivity.
    + rewrite H. reflexivity.
Qed.

Lemma str_spec (s : State P) :
  __str__ s =
  match start_time (self s) with
  | None => (Ok not_started, s)
  | Some _ =>
      match elapsed s with
      | (Ok x, s1) =>
          match str_format default_msg x with
          | Ok r => (Ok (rstrip_nl r), s1)
          | Raise e => (Raise e, s1)
          end
      | (Raise e, s1) => (Raise e, s1)
      end
  end.
Proof.
  unfold __str__, bind, is_started, hasattr_start_time.
  destruct (start_time (self s)); cbn [present]; [|reflexivity].
  destruct (elapsed s) as [[x|e] s1]; [|reflexivity].
  unfold format. destruct (str_format default_msg x); reflexivity.
Qed.

End Methods.

(** ** The sample environment keeps the laws *)

Lemma exact_laws : PlatformLaws Exact.
Proof.
  split; cbn [time tsub tle tzero clock Exact ExactPlatform]; unfold seconds.
  - intros i j Hij. lia.
  - intros i j Hij. lia.
  - intros i j k Hij. lia.
Qed.

(** So does the clock of the docstring's example, on IEEE floats. *)
Lemma docstring_laws : PlatformLaws Docstring.
Proof.
  split; cbn [time tsub tle tzero clock Docstring FloatPlatform].
  - intros [|i] [|j] Hij; try reflexivity. lia.
  - intros [|i] [|j] Hij; vm_compute in Hij |- *;
      try reflexivity; discriminate.
  - intros [|i] [|j] [|k] Hij; vm_compute in Hij |- *;
      try reflexivity; discriminate.
Qed.

(** The two barriers of the sample environment that keep to
    themselves. *)
Lemma rendezvous_hands_off : hands_off (I := Calls) rendezvous.
Proof. intros s. reflexivity. Qed.

Lemma broken_hands_off : hands_off (I := Calls) broken.
Proof. intros s. reflexivity. Qed.

(** ** Elapsed time *)

(** C1.  A started timer answers the elapsed-time query from its samples.
    Stopped: the answer is [end_time - start_time], the same at every
    query and in every surrounding state, and the query changes nothing.
    Running: the answer is the reading of the wall clock taken by the
    query minus [start_time]; with a non-decreasing clock, and a
    [start_time] that was read from it, a later query never answers less
    than an earlier one. *)
Theorem elapsed_from_samples {P : Platform} (t : TicToc P) (b : time) :
  start_time t = Some b ->
  (forall e, end_time t = Some e ->
     forall n w,
       elapsed {| self := t; ticks := n; world := w |}
       = (Ok (tsub e b), {| self := t; ticks := n; world := w |}))
  /\
  (end_time t = None ->
     (forall n w,
        elapsed {| self := t; ticks := n; world := w |}
        = (Ok (tsub (clock n) b), {| self := t; ticks := S n; world := w |}))
     /\
     (PlatformLaws P ->
      forall i n n' w w', b = clock i -> n <= n' ->
        exists x x',
          fst (elapsed {| self := t; ticks := n; world := w |}) = Ok x
          /\ fst (elapsed {| self := t; ticks := n'; world := w' |}) = Ok x'
          /\ tle x x')).
Proof.
  intros Hb. split.
  - intros e He n w. rewrite elapsed_spec. cbn [self].
    rewrite Hb, He. reflexivity.
  - intros He. split.
    + intros n w. rewrite elapsed_spec. cbn [self ticks world].
      rewrite Hb, He. reflexivity.
    + intros laws i n n' w w' Hi Hn.
      exists (tsub (clock n) b), (tsub (clock n') b).
      rewrite !elapsed_spec. cbn [self ticks world].
      rewrite Hb, He. cbn [fst].
      repeat split. subst b.
      apply (tsub_mono P laws), (clock_mono P laws), Hn.
Qed.

Lemma elapsed_from_samples_witness :
  elapsed {| self := sample_timer None None (Some 1700000000%Z)
                       (Some 1700000004%Z);
             ticks := 7; world := quiet |}
  = (Ok 4%Z, {| self := sample_timer None None (Some 1700000000%Z)
                          (Some 1700000004%Z);
                ticks := 7; world := quiet |})
  /\ (exists x x' : Z,
        fst (elapsed {| self := sample_timer None None (Some 1700000000%Z) None;
                        ticks := 1; world := quiet |}) = Ok x
        /\ fst (elapsed {| self := sample_timer None None (Some 1700000000%Z) None;
                           ticks := 2; world := quiet |}) = Ok x'
        /\ (x <= x')%Z)
  /\ (exists x x' : float,
        fst (elapsed (snd (tic (I := no_callables) docstring_start))) = Ok x
        /\ fst (elapsed (snd (elapsed (snd (tic (I := no_callables)
                                              docstring_start))))) = Ok x'
        /\ PrimFloat.leb x x' = true).
Proof.
  split; [|split].
  - exact (proj1 (elapsed_from_samples
                    (sample_timer None None (Some 1700000000%Z)
                       (Some 1700000004%Z))
                    1700000000%Z eq_refl)
             1700000004%Z eq_refl 7 quiet).
  - exact (proj2 (proj2 (elapsed_from_samples
                           (sample_timer None None (Some 1700000000%Z) None)
                           1700000000%Z eq_refl) eq_refl)
             exact_laws 0 1 2 quiet quiet eq_refl (le_S 1 1 (le_n 1))).
  - exact (proj2 (proj2 (elapsed_from_samples (P := Docstring)
                           (self (snd (tic (I := no_callables) docstring_start)))
                           1%float eq_refl) eq_refl)
             docstring_laws 0 1 2 (world docstring_start)
             (world docstring_start) eq_refl (le_S 1 1 (le_n 1))).
Defined.

(** C2.  On a timer without [start_time] (fresh from the constructor, or
    after [reset]) the elapsed-time query, [toc] and the conversion to a
    float raise [RuntimeError("Timer not yet started.")] and leave the
    whole state as it was. *)
Theorem idle_raises {P : Platform} {I : Interpreter P} (s : State P) :
  (forall msg barrier, start_time (__init__ msg barrier) = None)
  /\ start_time (self (leaves reset s)) = None
  /\ (start_time (self s) = None ->
      elapsed s = (Raise (RuntimeError "Timer not yet started."), s)
      /\ toc s = (Raise (RuntimeError "Timer not yet started."), s)
      /\ __float__ s = (Raise (RuntimeError "Timer not yet started."), s)).
Proof.
  split; [reflexivity|]. split.
  - unfold leaves. rewrite reset_spec. reflexivity.
  - intros H. unfold __float__. rewrite elapsed_spec, toc_spec, H.
    repeat split.
Qed.

Lemma idle_raises_witness :
  toc (I := Calls)
    {| self := __init__ (Some default_msg) (Some rendezvous);
       ticks := 0; world := quiet |}
  = (Raise (RuntimeError "Timer not yet started."),
     {| self := __init__ (Some default_msg) (Some rendezvous);
        ticks := 0; world := quiet |}).
Proof.
  exact (proj1 (proj2 (proj2 (proj2 (idle_raises (I := Calls)
           {| self := __init__ (Some default_msg) (Some rendezvous);
              ticks := 0; world := quiet |})) eq_refl))).
Defined.



(** ** Starting *)

Lemma rendezvous_barrier : barrier_hands_off (I := Calls) (Some rendezvous).
Proof. intros f [= <-]. exact rendezvous_hands_off. Qed.

Lemma broken_barrier : barrier_hands_off (I := Calls) (Some broken).
Proof. intros f [= <-]. exact broken_hands_off. Qed.

Lemma no_barrier {P : Platform} {I : Interpreter P} :
  barrier_hands_off None.
Proof. intros f. discriminate. Qed.

(** What a [tic] that returns leaves when the barrier keeps to itself:
    the reading [i] of the clock, taken after the call began, is
    [start_time], and there is no [end_time]. *)
Lemma tic_returns_hands_off {P : Platform} {I : Interpreter P}
  (s s1 : State P) :
  barrier_hands_off (_barrier (self s)) ->
  tic s = (Ok tt, s1) ->
  exists i,
    ticks s <= i
    /\ ticks s1 = S i
    /\ self s1 = set_start_time (Some (clock i)) (cleared (self s)).
Proof.
  intros H T. apply tic_returns in T. destruct T as (sb & B & ->).
  exists (ticks sb). split; [exact (call_barrier_ticks _ _ _ B)|].
  split; [reflexivity|].
  cbn [sampled self]. f_equal.
  exact (call_barrier_hands_off (emptied s) sb _ H B).
Qed.

(** C3.  In any state [tic] first deletes both samples, then calls the
    barrier if there is one, then stores the reading of the wall clock
    as [start_time].  For a barrier that leaves the timer alone, the
    timer is running when [tic] returns, and after a second [tic] a
    [toc] measures from the second start: the earlier [start_time] has
    no part in the result. *)
Theorem tic_restarts {P : Platform} {I : Interpreter P} (s : State P) :
  leaves reset s = emptied s
  /\ tic s =
     match _barrier (self s) with
     | None => (Ok tt, started s (world s))
     | Some f =>
         match call f (emptied s) with
         | (Ok _, s1) => (Ok tt, sampled s1)
         | (Raise e, s1) => (Raise e, s1)
         end
     end
  /\ (barrier_hands_off (_barrier (self s)) ->
      (forall s1, tic s = (Ok tt, s1) ->
         phase_of (self s1) = Running
         /\ end_time (self s1) = None
         /\ exists i,
              ticks s <= i
              /\ start_time (self s1) = Some (clock i)
              /\ ticks s1 = S i)
      /\ (forall n1 w1 n2 w2 s1 s2 s3,
            tic s = (Ok tt, s1) ->
            tic (perform (elsewhere n1 w1) s1) = (Ok tt, s2) ->
            toc (perform (elsewhere n2 w2) s2) = (Ok tt, s3) ->
            exists i j,
              n1 + ticks s1 <= i
              /\ ticks s2 = S i
              /\ n2 + ticks s2 <= j
              /\ start_time (self s3) = Some (clock i)
              /\ end_time (self s3) = Some (clock j)
              /\ elapsed s3 = (Ok (tsub (clock j) (clock i)), s3))).
Proof.
  split; [unfold leaves; rewrite reset_spec; reflexivity|].
  split.
  { rewrite tic_spec, call_barrier_spec.
    cbn [emptied self with_self cleared __init__ _barrier].
    destruct (_barrier (self s)) as [f|]; reflexivity. }
  intros H. split.
  - intros s1 T.
    destruct (tic_returns_hands_off s s1 H T) as (i & Hi & Ht & Hs).
    rewrite Hs. split; [reflexivity|]. split; [reflexivity|].
    exists i. auto.
  - intros n1 w1 n2 w2 s1 s2 s3 T1 T2 T3.
    destruct (tic_returns_hands_off s s1 H T1) as (i1 & _ & _ & Hs1).
    assert (H1 : barrier_hands_off
                   (_barrier (self (perform (elsewhere n1 w1) s1))))
      by (cbn [perform self]; rewrite Hs1; exact H).
    destruct (tic_returns_hands_off _ s2 H1 T2) as (i & Hi & Ht2 & Hs2).
    cbn [perform self ticks] in Hi, Hs2.
    destruct (toc_returns _ _ T3) as (b & sb & Hb & B & Hs3 & Ht3).
    assert (H2 : barrier_hands_off
                   (_barrier (self (perform (elsewhere n2 w2) s2))))
      by (cbn [perform self]; rewrite Hs2, Hs1; exact H).
    pose proof (call_barrier_hands_off _ _ _ H2 B) as Hsb.
    pose proof (call_barrier_ticks _ _ _ B) as Htb.
    cbn [perform self ticks] in Hsb, Htb.
    exists i, (ticks sb).
    assert (S3 : start_time (self s3) = Some (clock i))
      by (rewrite Hs3, Hsb, Hs2; reflexivity).
    assert (E3 : end_time (self s3) = Some (clock (ticks sb)))
      by (rewrite Hs3; reflexivity).
    rewrite elapsed_spec, S3, E3. repeat split; assumption.
Qed.

Lemma tic_restarts_witness :
  exists i j,
    3 + 1 <= i
    /\ 0 + S i <= j
    /\ elapsed
         (snd (toc (I := Calls) (perform (I := Calls) (elsewhere 0 quiet)
            (snd (tic (I := Calls) (perform (I := Calls) (elsewhere 3 quiet)
               (snd (tic (I := Calls)
                       (new_timer None (Some rendezvous)))))))))) 
       = (Ok (seconds j - seconds i)%Z,
          snd (toc (I := Calls) (perform (I := Calls) (elsewhere 0 quiet)
            (snd (tic (I := Calls) (perform (I := Calls) (elsewhere 3 quiet)
               (snd (tic (I := Calls)
                       (new_timer None (Some rendezvous)))))))))).
Proof.
  destruct (proj2 (proj2 (proj2 (tic_restarts (I := Calls)
              (new_timer None (Some rendezvous)))) rendezvous_barrier)
              3 quiet 0 quiet _ _ _ eq_refl eq_refl eq_refl)
    as (i & j & Hi & Ht & Hj & _ & _ & E).
  exists i, j. split; [exact Hi|]. split; [|exact E].
  rewrite <- Ht. exact Hj.
Defined.

(** A barrier that runs [t.tic(); t.toc()] itself: the outer [tic]
    returns with the [end_time] of the inner [toc] still there, earlier
    than the new [start_time]. *)
Lemma tic_restarts_counterexample :
  tic (I := Calls) (new_timer None (Some reenters))
  = (Ok tt,
     {| self := sample_timer None (Some reenters)
                  (Some 1700000004%Z) (Some 1700000002%Z);
        ticks := 3;
        world := @Build_World Exact "" 1 |})
  /\ phase_of (self (snd (tic (I := Calls)
                             (new_timer None (Some reenters))))) <> Running.
Proof. split; [reflexivity|discriminate]. Qed.

(** ** Stopping and reporting *)

(** C5.  [toc] returns exactly when the timer is started, the barrier
    returns and the template, if it is true, can be formatted.  It has
    then written to standard output the template formatted with the
    elapsed value, nothing before it and nothing after it, or nothing at
    all when the template is [None] or empty.  With the template
    ["{elapsed:7.3f}\n"] and a clock read at 1 and at 3.002 seconds the
    elapsed value is the float 2.002 and the output is ["  2.002\n"]. *)
Theorem toc_reports {P : Platform} {I : Interpreter P} (s s' : State P) :
  (toc s = (Ok tt, s') <->
   exists b s1,
     start_time (self s) = Some b
     /\ call_barrier s = (Ok tt, s1)
     /\ match truthy (_msg (self s1)) with
        | Some template =>
            exists b1 r,
              start_time (self s1) = Some b1
              /\ str_format template (tsub (clock (ticks s1)) b1) = Ok r
              /\ fst (elapsed (stopped s1 (world s1)))
                 = Ok (tsub (clock (ticks s1)) b1)
              /\ s' = stopped s1 (write r (world s1))
              /\ stdout (world s') = stdout (world s1) ++ r
        | None => s' = stopped s1 (world s1) /\ world s' = world s1
        end)
  /\ truthy (Some "") = None (A := string)
  /\ truthy None = None (A := string)
  /\ (let done := snd (toc (I := no_callables)
                         (snd (tic (I := no_callables) docstring_start))) in
      fst (elapsed done) = Ok 2.002%float
      /\ stdout (world done) = "  2.002" ++ String newline "").
Proof.
  split; [|split; [reflexivity|split; [reflexivity|]]].
  - rewrite toc_returns_iff. unfold stopped_and_reported.
    split; intros (b & s1 & Hb & Hs1 & H); exists b, s1;
      (split; [exact Hb|]); (split; [exact Hs1|]);
      destruct (truthy (_msg (self s1))) as [t|].
    + destruct H as (b1 & r & Hb1 & Hr & ->). exists b1, r.
      split; [exact Hb1|]. split; [exact Hr|]. split; [|split; reflexivity].
      rewrite elapsed_spec. cbn [stopped self set_end_time start_time end_time].
      rewrite Hb1. reflexivity.
    + subst s'. split; reflexivity.
    + destruct H as (b1 & r & Hb1 & Hr & _ & -> & _). exists b1, r.
      split; [exact Hb1|]. split; [exact Hr|reflexivity].
    + apply H.
  - vm_compute. split; reflexivity.
Qed.

Lemma toc_reports_witness :
  toc (I := Calls)
    {| self := sample_timer (Some default_msg) (Some rendezvous)
                 (Some 1700000000%Z) None;
       ticks := 3; world := quiet |}
  = (Ok tt,
     {| self := sample_timer (Some default_msg) (Some rendezvous)
                  (Some 1700000000%Z) (Some 1700000006%Z);
        ticks := 4;
        world := @Build_World Exact
                   ("Elapsed time is 6.000000 seconds." ++ String newline "")
                   1 |}).
Proof.
  apply (proj1 (toc_reports (I := Calls) _ _)).
  exists 1700000000%Z,
    {| self := sample_timer (Some default_msg) (Some rendezvous)
                 (Some 1700000000%Z) None;
       ticks := 3; world := @Build_World Exact "" 1 |}.
  split; [reflexivity|]. split; [reflexivity|].
  exists 1700000000%Z,
    ("Elapsed time is 6.000000 seconds." ++ String newline "").
  repeat split.
Defined.

(** ** The timer as a context manager *)

(** C4.  Entering is [tic] and leaving is [toc].  The [with] statement
    runs [toc] in the state the body leaves, whether the body returned
    or raised, and the statement ends in the state [toc] leaves.  When
    the body raised and [toc] returns, [end_time] is recorded, the
    report is on standard output, and the statement raises the body's
    exception; when [toc] itself raises, its exception is the one that
    reaches the caller. *)
Theorem with_statement_releases {P : Platform} {I : Interpreter P}
  {A : Type} (body : object -> M A) (s : State P) :
  __enter__ s
  = (match fst (tic s) with
     | Ok _ => Ok self_object
     | Raise e => Raise e
     end, snd (tic s))
  /\ (forall raised, __exit__ raised = toc)
  /\ (forall s1 outcome s2,
        tic s = (Ok tt, s1) ->
        body self_object s1 = (outcome, s2) ->
        snd (with_statement body s) = snd (toc s2)
        /\ (fst (toc s2) = Ok tt -> fst (with_statement body s) = outcome)
        /\ (forall e', fst (toc s2) = Raise e' ->
              fst (with_statement body s) = Raise e'))
  /\ (forall s1 e s2 s3,
        tic s = (Ok tt, s1) ->
        body self_object s1 = (Raise e, s2) ->
        toc s2 = (Ok tt, s3) ->
        with_statement body s = (Raise e, s3)
        /\ exists b sb,
             start_time (self s2) = Some b
             /\ call_barrier s2 = (Ok tt, sb)
             /\ end_time (self s3) = Some (clock (ticks sb))
             /\ match truthy (_msg (self sb)) with
                | Some template =>
                    exists b1 r,
                      start_time (self sb) = Some b1
                      /\ str_format template (tsub (clock (ticks sb)) b1)
                         = Ok r
                      /\ stdout (world s3) = stdout (world sb) ++ r
                | None => world s3 = world sb
                end).
Proof.
  assert (Enter : __enter__ s
                  = (match fst (tic s) with
                     | Ok _ => Ok self_object
                     | Raise e => Raise e
                     end, snd (tic s))).
  { unfold __enter__, bind, ret. destruct (tic s) as [[u|e] s1]; reflexivity. }
  split; [exact Enter|]. split; [reflexivity|]. split.
  - intros s1 outcome s2 Htic Hbody.
    unfold with_statement. rewrite Enter, Htic. cbn [fst snd].
    rewrite Hbody. unfold __exit__.
    destruct outcome as [a|e]; destruct (toc s2) as [[[]|e'] s3]; cbn [fst snd];
      (split; [reflexivity|]); (split; [intros Q|intros e'' Q]);
      congruence.
  - intros s1 e s2 s3 Htic Hbody Htoc.
    split.
    + unfold with_statement. rewrite Enter, Htic. cbn [fst snd].
      rewrite Hbody. unfold __exit__. rewrite Htoc. reflexivity.
    + destruct (toc_returns _ _ Htoc) as (b0 & sb0 & _ & B0 & Hself & _).
      apply toc_returns_iff in Htoc.
      destruct Htoc as (b & sb & Hb & Hsb & H).
      assert (sb0 = sb) by congruence. subst sb0.
      exists b, sb. split; [exact Hb|]. split; [exact Hsb|].
      split; [rewrite Hself; reflexivity|].
      unfold stopped_and_reported in H.
      destruct (truthy (_msg (self sb))) as [t|].
      * destruct H as (b1 & r & Hb1 & Hr & ->). exists b1, r.
        split; [exact Hb1|]. split; [exact Hr|reflexivity].
      * rewrite H. reflexivity.
Qed.

Lemma with_statement_releases_witness :
  with_statement (I := Calls) failing_body
    {| self := __init__ (Some default_msg) None; ticks := 0; world := quiet |}
  = (Raise ZeroDivisionError,
     {| self := sample_timer (Some default_msg) None
                  (Some 1700000000%Z) (Some 1700000002%Z);
        ticks := 2;
        world := @Build_World Exact
                   ("Elapsed time is 2.000000 seconds." ++ String newline "")
                   0 |}).
Proof.
  exact (proj1 (proj2 (proj2 (proj2 (with_statement_releases (I := Calls)
           failing_body
           {| self := __init__ (Some default_msg) None;
              ticks := 0; world := quiet |})))
           _ ZeroDivisionError _ _ eq_refl eq_refl eq_refl)).
Defined.

(** A body that resets the timer and then raises: [toc] raises in
    [__exit__], so the caller gets [RuntimeError] instead of the body's
    exception, no [end_time] is recorded and nothing is reported. *)
Lemma with_statement_releases_counterexample :
  with_statement (I := Calls) resetting_body
    (new_timer (Some default_msg) None)
  = (Raise (RuntimeError "Timer not yet started."),
     {| self := __init__ (Some default_msg) None;
        ticks := 1; world := quiet |})
  /\ fst (with_statement (I := Calls) resetting_body
            (new_timer (Some default_msg) None))
     <> Raise ZeroDivisionError.
Proof. split; [reflexivity|discriminate]. Qed.

(** ** A barrier that raises *)

(** C9.  When the barrier of a started timer raises, [toc] raises the
    same exception and does nothing more: the clock is not read by
    [toc], nothing is written by it, and the state is the one the
    barrier left.  If the barrier left the timer alone, both samples are
    as they were. *)
Theorem toc_barrier_failure {P : Platform} {I : Interpreter P}
  (s : State P) (b : time) (f : callable) (e : exn) :
  start_time (self s) = Some b ->
  _barrier (self s) = Some f ->
  outcome (invoke f s) = Raise e ->
  toc s = (Raise e, snd (call f s))
  /\ world (snd (toc s)) = world_left (invoke f s)
  /\ ticks (snd (toc s)) = readings (invoke f s) + ticks s
  /\ (timer_left (invoke f s) = self s ->
      self (snd (toc s)) = self s
      /\ start_time (self (snd (toc s))) = start_time (self s)
      /\ end_time (self (snd (toc s))) = end_time (self s))
  /\ (stdout (world_left (invoke f s)) = stdout (world s) ->
      stdout (world (snd (toc s))) = stdout (world s)).
Proof.
  intros Hb Hf He.
  assert (H : toc s = (Raise e, snd (call f s))).
  { rewrite toc_spec, Hb, call_barrier_spec, Hf. unfold call.
    rewrite He. reflexivity. }
  rewrite H. cbn [fst snd call self world ticks].
  split; [reflexivity|]. split; [reflexivity|]. split; [reflexivity|].
  split.
  - intros E. rewrite E. auto.
  - auto.
Qed.

Lemma toc_barrier_failure_witness :
  toc (I := Calls)
    {| self := sample_timer (Some default_msg) (Some broken)
                 (Some 1700000000%Z) (Some 1700000002%Z);
       ticks := 2; world := quiet |}
  = (Raise MPIError,
     {| self := sample_timer (Some default_msg) (Some broken)
                  (Some 1700000000%Z) (Some 1700000002%Z);
        ticks := 2; world := @Build_World Exact "" 1 |}).
Proof.
  exact (proj1 (toc_barrier_failure (I := Calls)
           {| self := sample_timer (Some default_msg) (Some broken)
                        (Some 1700000000%Z) (Some 1700000002%Z);
              ticks := 2; world := quiet |}
           1700000000%Z broken MPIError eq_refl eq_refl eq_refl)).
Defined.

(** A barrier that calls [t.reset()] and then raises: [toc] raises the
    barrier's exception and the timer has lost its [start_time]. *)
Lemma toc_barrier_failure_counterexample :
  toc (I := Calls) (running_timer (Some default_msg) (Some resets_and_fails))
  = (Raise MPIError,
     {| self := __init__ (Some default_msg) (Some resets_and_fails);
        ticks := 1; world := quiet |})
  /\ start_time (self (running_timer (Some default_msg)
                         (Some resets_and_fails)))
     = Some 1700000000%Z
  /\ start_time (self (snd (toc (I := Calls)
                              (running_timer (Some default_msg)
                                 (Some resets_and_fails)))))
     <> start_time (self (running_timer (Some default_msg)
                            (Some resets_and_fails))).
Proof. split; [reflexivity|split; [reflexivity|discriminate]]. Qed.

(** C10.  When the barrier raises, [tic] raises the same exception after
    both samples have been deleted, and does nothing more: the state is
    the one the barrier left, called on the emptied timer.  If the
    barrier left the timer alone, the timer is idle whatever state it
    was in, and from then on the elapsed-time query and [toc] raise
    [RuntimeError("Timer not yet started.")]. *)
Theorem tic_barrier_failure {P : Platform} {I : Interpreter P}
  (s : State P) (f : callable) (e : exn) :
  _barrier (self s) = Some f ->
  outcome (invoke f (emptied s)) = Raise e ->
  tic s = (Raise e, snd (call f (emptied s)))
  /\ start_time (self (emptied s)) = None
  /\ end_time (self (emptied s)) = None
  /\ (timer_left (invoke f (emptied s)) = cleared (self s) ->
      self (snd (tic s)) = cleared (self s)
      /\ phase_of (self (snd (tic s))) = Idle
      /\ start_time (self (snd (tic s))) = None
      /\ end_time (self (snd (tic s))) = None
      /\ (forall n w',
            let later := perform (elsewhere n w') (snd (tic s)) in
            elapsed later
            = (Raise (RuntimeError "Timer not yet started."), later)
            /\ toc later
               = (Raise (RuntimeError "Timer not yet started."), later))).
Proof.
  intros Hf He.
  assert (H : tic s = (Raise e, snd (call f (emptied s)))).
  { rewrite tic_spec, call_barrier_spec.
    cbn [emptied self with_self cleared __init__ _barrier]. rewrite Hf.
    unfold call. fold (emptied s). rewrite He. reflexivity. }
  rewrite H. cbn [fst snd call self].
  split; [reflexivity|]. split; [reflexivity|]. split; [reflexivity|].
  intros ->.
  split; [reflexivity|]. split; [reflexivity|].
  split; [reflexivity|]. split; [reflexivity|].
  intros n w'. split.
  - rewrite elapsed_spec. reflexivity.
  - rewrite toc_spec. reflexivity.
Qed.

Lemma tic_barrier_failure_witness :
  tic (I := Calls)
    {| self := sample_timer (Some default_msg) (Some broken)
                 (Some 1700000000%Z) (Some 1700000002%Z);
       ticks := 2; world := quiet |}
  = (Raise MPIError,
     {| self := __init__ (Some default_msg) (Some broken);
        ticks := 2; world := @Build_World Exact "" 1 |})
  /\ toc (I := Calls)
       {| self := __init__ (Some default_msg) (Some broken);
          ticks := 2; world := @Build_World Exact "" 1 |}
     = (Raise (RuntimeError "Timer not yet started."),
        {| self := __init__ (Some default_msg) (Some broken);
           ticks := 2; world := @Build_World Exact "" 1 |}).
Proof.
  split.
  - exact (proj1 (tic_barrier_failure (I := Calls)
             {| self := sample_timer (Some default_msg) (Some broken)
                          (Some 1700000000%Z) (Some 1700000002%Z);
                ticks := 2; world := quiet |}
             broken MPIError eq_refl eq_refl)).
  - exact (proj2 (proj2 (proj2 (proj2 (proj2
             (proj2 (proj2 (proj2
                (tic_barrier_failure (I := Calls)
                   {| self := sample_timer (Some default_msg) (Some broken)
                                (Some 1700000000%Z) (Some 1700000002%Z);
                      ticks := 2; world := quiet |}
                   broken MPIError eq_refl eq_refl)))
                eq_refl))))
             0 (@Build_World Exact "" 1))).
Defined.

(** A barrier that runs [t.tic()] itself and then raises: the outer
    [tic] raises and leaves the timer running, and the elapsed-time
    query then answers. *)
Lemma tic_barrier_failure_counterexample :
  tic (I := Calls) (running_timer None (Some restarts_and_fails))
  = (Raise MPIError,
     {| self := sample_timer None (Some restarts_and_fails)
                  (Some 1700000002%Z) None;
        ticks := 2; world := @Build_World Exact "" 1 |})
  /\ phase_of (self (snd (tic (I := Calls)
                            (running_timer None (Some restarts_and_fails)))))
     <> Idle
  /\ fst (elapsed (snd (tic (I := Calls)
                          (running_timer None (Some restarts_and_fails)))))
     = Ok 2%Z.
Proof. split; [reflexivity|split; [discriminate|reflexivity]]. Qed.

(** ** Conversion to a string *)

Lemma rstrip_nl_spec (x : string) :
  (exists k, x = rstrip_nl x ++ newlines k)
  /\ last_char (rstrip_nl x) <> Some newline.
Proof.
  induction x as [|c r [[k Hk] Hl]]; cbn [rstrip_nl].
  - split; [exists 0; reflexivity|discriminate].
  - destruct (rstrip_nl r) as [|c' r'] eqn:R.
    + destruct (Ascii.eqb_spec c newline) as [->|Hc].
      * split; [exists (S k); rewrite Hk; reflexivity|discriminate].
      * split; [exists k; rewrite Hk; reflexivity|].
        cbn. congruence.
    + split.
      * exists k. rewrite Hk at 1. reflexivity.
      * change (last_char (String c (String c' r')))
          with (match last_char (String c' r') with
                | None => Some c
                | Some l => Some l
                end).
        destruct (last_char (String c' r')) eqn:L; [exact Hl|].
        cbn in L. destruct (last_char r'); discriminate.
Qed.

(** C8.  Given that formatting the default message with a float cannot
    fail, [__str__] returns in every state and leaves the timer and the
    world as they were.  On an idle timer the answer is
    ["Timer not yet started."] and nothing at all changes; on a started
    timer it is the default message formatted with the value the
    elapsed-time query gives in that state, without its trailing
    newlines. *)
Theorem str_never_raises {P : Platform}
  (formats : forall x, exists r, str_format default_msg x = Ok r)
  (s : State P) :
  exists answer,
    fst (__str__ s) = Ok answer
    /\ self (snd (__str__ s)) = self s
    /\ world (snd (__str__ s)) = world s
    /\ (start_time (self s) = None ->
        answer = "Timer not yet started." /\ snd (__str__ s) = s)
    /\ (forall b, start_time (self s) = Some b ->
        exists x r k,
          fst (elapsed s) = Ok x
          /\ str_format default_msg x = Ok r
          /\ answer = rstrip_nl r
          /\ r = answer ++ newlines k
          /\ last_char answer <> Some newline).
Proof.
  destruct (start_time (self s)) as [b|] eqn:Hb.
  - assert (E : exists x s1, elapsed s = (Ok x, s1)
                             /\ self s1 = self s /\ world s1 = world s).
    { rewrite elapsed_spec, Hb.
      destruct (end_time (self s)); eexists _, _; repeat split. }
    destruct E as (x & s1 & E & Hself & Hworld).
    destruct (formats x) as [r Hr].
    assert (Str : __str__ s = (Ok (rstrip_nl r), s1))
      by (rewrite str_spec, Hb, E, Hr; reflexivity).
    rewrite Str, E. cbn [fst snd].
    exists (rstrip_nl r).
    split; [reflexivity|]. split; [exact Hself|]. split; [exact Hworld|].
    split; [discriminate|].
    intros b0 _. destruct (rstrip_nl_spec r) as [[k Hk] Hl].
    exists x, r, k. auto.
  - rewrite str_spec, Hb. cbn [fst snd].
    exists not_started. repeat split; discriminate.
Qed.

(** The model of [str.format] renders the default message for every
    float. *)
Lemma float_formats_default (wall : nat -> float) (x : float) :
  exists r, str_format (Platform := FloatPlatform wall) default_msg x = Ok r.
Proof.
  cbn [str_format FloatPlatform]. unfold PyFormat.py_format.
  set (pieces := PyFormat.parse PyFormat.Text default_msg).
  vm_compute in pieces. subst pieces.
  cbn [option_map PyFormat.within_fragment].
  eexists. reflexivity.
Qed.

Lemma str_never_raises_witness :
  exists answer,
    fst (__str__ docstring_running) = Ok answer
    /\ self (snd (__str__ docstring_running))
       = self docstring_running
    /\ world (snd (__str__ docstring_running))
       = world docstring_running
    /\ (start_time (self docstring_running) = None ->
        answer = "Timer not yet started."
        /\ snd (__str__ docstring_running)
           = docstring_running)
    /\ (forall b, start_time (self docstring_running) = Some b ->
        exists x r k,
          fst (elapsed docstring_running) = Ok x
          /\ str_format default_msg x = Ok r
          /\ answer = rstrip_nl r
          /\ r = answer ++ newlines k
          /\ last_char answer <> Some newline).
Proof.
  exact (str_never_raises (P := Docstring)
           (float_formats_default docstring_wall)
           docstring_running).
Defined.

Example str_of_running_timer :
  fst (__str__ docstring_running)
  = Ok "Elapsed time is 2.002000 seconds.".
Proof. vm_compute. reflexivity. Qed.

Example str_of_idle_timer :
  __str__ docstring_start = (Ok "Timer not yet started.", docstring_start).
Proof. reflexivity. Qed.

(** ** The module's own timer *)

(** C7.  The module makes one instance when it is loaded,
    [TicToc()] with the default message and no barrier; the module's
    [tic] and [toc] are that instance's methods.  Whatever samples
    earlier calls left in the instance, [tic()] followed by [toc()]
    returns what [tic] and [toc] of a fresh [TicToc()] return over the
    same readings of the clock, and leaves the same text on standard
    output and the same samples in the timer. *)
Theorem default_instance {P : Platform} {I : Interpreter P} :
  simpletimer._tictoc = __init__ (Some default_msg) None
  /\ _msg simpletimer._tictoc = Some default_msg
  /\ _barrier simpletimer._tictoc = None
  /\ simpletimer.tic = tic
  /\ simpletimer.toc = toc
  /\ (forall n w, self (simpletimer.loaded n w) = simpletimer._tictoc)
  /\ (forall (b e : option time) n w n' w',
        let used := {| self := {| _msg := Some default_msg;
                                  _barrier := None;
                                  start_time := b;
                                  end_time := e |};
                       ticks := n; world := w |} in
        let fresh := {| self := __init__ (Some default_msg) None;
                        ticks := n; world := w |} in
        simpletimer.tic used = (Ok tt, started fresh w)
        /\ tic fresh = (Ok tt, started fresh w)
        /\ simpletimer.toc (perform (elsewhere n' w') (started fresh w))
           = toc (perform (elsewhere n' w') (started fresh w))
        /\ simpletimer.toc (perform (elsewhere n' w')
                              (snd (simpletimer.tic used)))
           = toc (perform (elsewhere n' w') (snd (tic fresh)))).
Proof.
  repeat (split; [reflexivity|]).
  intros b e n w n' w' used fresh.
  assert (U : simpletimer.tic used = (Ok tt, started fresh w))
    by (unfold simpletimer.tic; rewrite tic_no_barrier; reflexivity).
  assert (F : tic fresh = (Ok tt, started fresh w))
    by (rewrite tic_no_barrier; reflexivity).
  rewrite U, F. repeat split.
Qed.

(** ** The state each operation leaves *)

Section Leaves.

Context {P : Platform} {I : Interpreter P}.

(** [tic] leaves the state the barrier left, with the new sample if the
    barrier returned. *)
Lemma tic_leaves (s : State P) :
  exists r sb,
    call_barrier (emptied s) = (r, sb)
    /\ ((r = Ok tt /\ leaves tic s = sampled sb)
        \/ (barrier_raises (emptied s) = true /\ leaves tic s = sb)).
Proof.
  unfold leaves, barrier_raises. rewrite tic_spec.
  destruct (call_barrier (emptied s)) as [[[]|e] sb]; eexists _, sb;
    (split; [reflexivity|]); auto.
Qed.

Lemma enter_leaves (s : State P) : leaves __enter__ s = leaves tic s.
Proof.
  unfold leaves, __enter__, bind, ret.
  destruct (tic s) as [[u|e] s1]; reflexivity.
Qed.

(** [toc] leaves an idle timer's state as it is; otherwise it leaves the
    state the barrier left, with the new sample, and perhaps the report,
    if the barrier returned. *)
Lemma toc_leaves (s : State P) :
  (start_time (self s) = None /\ leaves toc s = s)
  \/ exists b r sb,
       start_time (self s) = Some b
       /\ call_barrier s = (r, sb)
       /\ ((barrier_raises s = true /\ leaves toc s = sb)
           \/ (r = Ok tt /\ exists w, leaves toc s = stopped sb w)).
Proof.
  unfold leaves, barrier_raises. rewrite toc_spec.
  destruct (start_time (self s)) as [b|]; [right|left; auto].
  exists b.
  destruct (call_barrier s) as [[[]|e] sb]; eexists _, sb;
    (split; [reflexivity|]); (split; [reflexivity|]); cbn [fst snd].
  - right. split; [reflexivity|]. unfold report.
    destruct (truthy (_msg (self sb))) as [t|];
      [|eexists; reflexivity].
    destruct (start_time (self sb)) as [b1|]; [|eexists; reflexivity].
    destruct (str_format t (tsub (clock (ticks sb)) b1));
      eexists; reflexivity.
  - left. auto.
Qed.

Lemma elapsed_leaves (s : State P) :
  leaves elapsed s = s
  \/ (phase_of (self s) = Running
      /\ leaves elapsed s
         = {| self := self s; ticks := S (ticks s); world := world s |}).
Proof.
  unfold leaves, phase_of. rewrite elapsed_spec.
  destruct (start_time (self s)), (end_time (self s)); cbn [snd]; auto.
Qed.

Lemma str_leaves (s : State P) : leaves __str__ s = leaves elapsed s.
Proof.
  unfold leaves. rewrite str_spec, elapsed_spec.
  destruct (start_time (self s)) as [b|]; [|reflexivity].
  destruct (end_time (self s)) as [e|];
    match goal with
    | |- context [str_format default_msg ?x] =>
        destruct (str_format default_msg x)
    end; reflexivity.
Qed.

(** What an asking operation leaves: the same state, or, on a running
    timer, the same state with one more reading of the clock taken. *)
Lemma read_only_leaves (o : operation) (s : State P) :
  read_only o = true ->
  perform o s = s
  \/ (phase_of (self s) = Running
      /\ perform o s
         = {| self := self s; ticks := S (ticks s); world := world s |}).
Proof.
  destruct o; try discriminate; intros _; cbn [perform].
  - apply elapsed_leaves.
  - left. reflexivity.
  - left. reflexivity.
  - apply elapsed_leaves.
  - rewrite str_leaves. apply elapsed_leaves.
Qed.

End Leaves.

(** ** The order of the samples *)

Section Samples.

Context {P : Platform} {I : Interpreter P}.

Lemma well_sampled_later (s s' : State P) :
  self s' = self s -> ticks s <= ticks s' ->
  well_sampled s -> well_sampled s'.
Proof.
  unfold well_sampled. intros -> Hn.
  destruct (start_time (self s)) as [b|], (end_time (self s)) as [e|];
    try exact (fun H => H).
  - intros (i & j & Hb & He & Hij & Hj). exists i, j.
    repeat split; try assumption; lia.
  - intros (i & Hb & Hi). exists i. split; [assumption|lia].
Qed.

Lemma well_sampled_emptied (sb : State P) (t : TicToc P) :
  self sb = cleared t -> well_sampled sb.
Proof. unfold well_sampled. intros ->. exact Logic.I. Qed.

Lemma well_sampled_sampled (sb : State P) (t : TicToc P) :
  self sb = cleared t -> well_sampled (sampled sb).
Proof.
  unfold well_sampled, sampled. cbn. intros ->. cbn.
  exists (ticks sb). split; [reflexivity|lia].
Qed.

Lemma well_sampled_stopped (s : State P) (b : time) (w : World P) :
  start_time (self s) = Some b ->
  well_sampled s -> well_sampled (stopped s w).
Proof.
  unfold well_sampled, stopped. cbn. intros ->.
  destruct (end_time (self s)) as [e|].
  - intros (i & j & Hb & _ & Hij & Hj). exists i, (ticks s).
    repeat split; try assumption; lia.
  - intros (i & Hb & Hi). exists i, (ticks s).
    repeat split; try assumption; lia.
Qed.

(** The barrier of a timer is the same after every operation when it
    keeps to itself, and the samples stay in order. *)
Lemma perform_well_sampled (o : operation) (s : State P) :
  barrier_hands_off (_barrier (self s)) ->
  well_sampled s ->
  well_sampled (perform o s)
  /\ _barrier (self (perform o s)) = _barrier (self s).
Proof.
  intros H W.
  assert (Tic : well_sampled (leaves tic s)
                /\ _barrier (self (leaves tic s)) = _barrier (self s)).
  { destruct (tic_leaves s) as (r & sb & B & [[_ ->]|[_ ->]]);
      pose proof (call_barrier_hands_off (emptied s) sb r H B) as E;
      cbn [emptied with_self self] in E.
    - split; [exact (well_sampled_sampled sb _ E)|].
      cbn [sampled self set_start_time _barrier]. rewrite E. reflexivity.
    - split; [exact (well_sampled_emptied sb _ E)|].
      rewrite E. reflexivity. }
  assert (Toc : well_sampled (leaves toc s)
                /\ _barrier (self (leaves toc s)) = _barrier (self s)).
  { destruct (toc_leaves s)
      as [[_ ->]|(b & r & sb & Hb & B & [[_ ->]|[_ [w ->]]])];
      [auto| |];
      pose proof (call_barrier_hands_off s sb r H B) as E;
      pose proof (call_barrier_ticks s sb r B) as T.
    - split; [exact (well_sampled_later s sb E T W)|].
      rewrite E. reflexivity.
    - split.
      + apply (well_sampled_stopped sb b); [rewrite E; exact Hb|].
        exact (well_sampled_later s sb E T W).
      + cbn [stopped self set_end_time _barrier]. rewrite E. reflexivity. }
  assert (Ask : well_sampled (leaves elapsed s)
                /\ _barrier (self (leaves elapsed s)) = _barrier (self s)).
  { destruct (elapsed_leaves s) as [->|[_ ->]]; [auto|].
    split; [|reflexivity].
    apply (well_sampled_later s); [reflexivity|cbn; lia|exact W]. }
  destruct o; cbn [perform]; auto.
  - unfold leaves. rewrite reset_spec. split; [exact Logic.I|reflexivity].
  - rewrite str_leaves. exact Ask.
  - rewrite enter_leaves. exact Tic.
  - split; [|reflexivity].
    apply (well_sampled_later s); [reflexivity|cbn; lia|exact W].
Qed.

Lemma run_well_sampled (ops : list operation) (s : State P) :
  barrier_hands_off (_barrier (self s)) ->
  well_sampled s -> well_sampled (run ops s).
Proof.
  revert s. induction ops as [|o ops IH]; intros s H W; [exact W|].
  destruct (perform_well_sampled o s H W) as [W' B'].
  apply IH; [rewrite B'; exact H|exact W'].
Qed.

End Samples.

(** C6.  Start from a new timer whose barrier, if it has one, leaves the
    timer alone, and perform any sequence of public operations, with any
    other code in between.  If the timer then has an [end_time], it has
    a [start_time] too, and with a non-decreasing wall clock the
    [start_time] is not after the [end_time]; its elapsed value is at
    least zero.  In particular [tic] followed at once by [toc] gives an
    elapsed value of at least zero. *)
Theorem samples_ordered {P : Platform} {I : Interpreter P}
  (laws : PlatformLaws P) (msg : option string) (barrier : option callable)
  (quiet_barrier : barrier_hands_off barrier) (n : nat) (w : World P)
  (ops : list operation) :
  (forall e,
     end_time (self (run ops {| self := __init__ msg barrier;
                                ticks := n; world := w |})) = Some e ->
     exists b,
       start_time (self (run ops {| self := __init__ msg barrier;
                                    ticks := n; world := w |})) = Some b
       /\ tle b e
       /\ fst (elapsed (run ops {| self := __init__ msg barrier;
                                   ticks := n; world := w |}))
          = Ok (tsub e b)
       /\ tle tzero (tsub e b))
  /\ (forall s0 s1 s2 : State P,
        _barrier (self s0) = barrier ->
        tic s0 = (Ok tt, s1) -> toc s1 = (Ok tt, s2) ->
        exists x, elapsed s2 = (Ok x, s2) /\ tle tzero x).
Proof.
  split.
  - set (s := run ops _). intros e He.
    assert (H : well_sampled s)
      by (apply run_well_sampled; [exact quiet_barrier|exact Logic.I]).
    unfold well_sampled in H. rewrite He in H.
    destruct (start_time (self s)) as [b|] eqn:Hb; [|contradiction].
    destruct H as (i & j & -> & -> & Hij & _).
    exists (clock i). split; [reflexivity|].
    assert (L : tle (clock i) (clock j)) by (apply (clock_mono P laws), Hij).
    split; [exact L|]. split.
    + rewrite elapsed_spec, Hb, He. reflexivity.
    + apply (tsub_nonneg P laws), L.
  - intros s0 s1 s2 Hbar Htic Htoc.
    assert (H0 : barrier_hands_off (_barrier (self s0)))
      by (rewrite Hbar; exact quiet_barrier).
    destruct (tic_returns_hands_off s0 s1 H0 Htic) as (i & _ & Ht1 & Hs1).
    destruct (toc_returns _ _ Htoc) as (b & sb & Hb & B & Hs2 & _).
    assert (H1 : barrier_hands_off (_barrier (self s1)))
      by (rewrite Hs1; exact H0).
    pose proof (call_barrier_hands_off s1 sb _ H1 B) as Hsb.
    pose proof (call_barrier_ticks s1 sb _ B) as Htb.
    exists (tsub (clock (ticks sb)) (clock i)). split.
    + rewrite elapsed_spec, Hs2, Hsb, Hs1. reflexivity.
    + apply (tsub_nonneg P laws), (clock_mono P laws). lia.
Qed.

Lemma samples_ordered_witness :
  (exists b : Z,
     start_time (self (run (I := Calls) session
                         (new_timer (Some default_msg) (Some rendezvous))))
     = Some b
     /\ (b <= 1700000006)%Z
     /\ fst (elapsed (run (I := Calls) session
                        (new_timer (Some default_msg) (Some rendezvous))))
        = Ok (1700000006 - b)%Z
     /\ (0 <= 1700000006 - b)%Z)
  /\ (exists b : float,
        start_time (self (run (I := no_callables) docstring_session
                            docstring_start)) = Some b
        /\ PrimFloat.leb b 3.002 = true
        /\ fst (elapsed (run (I := no_callables) docstring_session
                           docstring_start))
           = Ok (3.002 - b)%float
        /\ PrimFloat.leb 0 (3.002 - b) = true).
Proof.
  split.
  - exact (proj1 (samples_ordered (I := Calls) exact_laws (Some default_msg)
                    (Some rendezvous) rendezvous_barrier 0 quiet session)
             1700000006%Z eq_refl).
  - exact (proj1 (samples_ordered (I := no_callables) docstring_laws
                    (Some docstring_template) None no_barrier 0
                    (world docstring_start) docstring_session)
             3.002%float eq_refl).
Defined.

(** With the barrier [lambda: t.reset()], [tic] followed by [toc] leaves
    a timer that has an [end_time] and no [start_time]. *)
Lemma samples_ordered_counterexample :
  end_time (self (run (I := Calls) [call_tic; call_toc]
                    (new_timer None (Some resets))))
  = Some 1700000002%Z
  /\ start_time (self (run (I := Calls) [call_tic; call_toc]
                         (new_timer None (Some resets))))
     = None.
Proof. split; reflexivity. Qed.

(** * Further properties of the class *)

(** ** Asking changes nothing *)

(** X1.  The elapsed-time property, [is_started], [is_ended], [__float__]
    and [__str__], in any number and order, leave the timer and the world
    as they were; each reads the wall clock at most once.  On a timer
    that is not running they leave the whole state as it was. *)
Theorem queries_change_nothing {P : Platform} {I : Interpreter P}
  (qs : list operation) (s : State P) :
  forallb read_only qs = true ->
  self (run qs s) = self s
  /\ world (run qs s) = world s
  /\ ticks s <= ticks (run qs s) <= ticks s + List.length qs
  /\ (phase_of (self s) <> Running -> run qs s = s).
Proof.
  revert s. induction qs as [|o qs IH]; intros s H.
  - cbn. repeat split; lia.
  - cbn [forallb] in H. apply andb_prop in H. destruct H as [Ho Hqs].
    cbn [run fold_left]. change (fold_left _ qs ?x) with (run qs x).
    destruct (IH (perform o s) Hqs) as (Hself & Hworld & Hticks & Hrest).
    destruct (read_only_leaves o s Ho) as [E|[R E]].
    + rewrite E in *. cbn [List.length]. repeat split; try assumption; lia.
    + rewrite E in *. cbn [self world ticks List.length] in *.
      repeat split; try assumption; try lia.
      intros NR. contradiction.
Qed.

Lemma queries_change_nothing_witness :
  run (I := Calls) questions
    {| self := sample_timer (Some default_msg) (Some broken)
                 (Some 1700000000%Z) (Some 1700000002%Z);
       ticks := 2; world := quiet |}
  = {| self := sample_timer (Some default_msg) (Some broken)
                 (Some 1700000000%Z) (Some 1700000002%Z);
       ticks := 2; world := quiet |}.
Proof.
  refine (proj2 (proj2 (proj2 (queries_change_nothing (I := Calls)
            questions
            {| self := sample_timer (Some default_msg) (Some broken)
                         (Some 1700000000%Z) (Some 1700000002%Z);
               ticks := 2; world := quiet |} eq_refl))) _).
  discriminate.
Defined.

(** ** The configuration is fixed *)

Section Configuration.

Context {P : Platform} {I : Interpreter P}.

Lemma hands_off_keeps (f : callable) : hands_off f -> keeps_configuration f.
Proof. intros H s. rewrite (H s). split; reflexivity. Qed.

Lemma call_barrier_keeps (s sb : State P) (r : result unit) :
  (forall f, _barrier (self s) = Some f -> keeps_configuration f) ->
  call_barrier s = (r, sb) ->
  _msg (self sb) = _msg (self s) /\ _barrier (self sb) = _barrier (self s).
Proof.
  intros H. rewrite call_barrier_spec.
  destruct (_barrier (self s)) as [f|] eqn:B; intros [= <- <-].
  - cbn [self]. rewrite <- B. exact (H f eq_refl s).
  - rewrite B. split; reflexivity.
Qed.

Lemma perform_keeps_configuration (o : operation) (s : State P) :
  (forall f, _barrier (self s) = Some f -> keeps_configuration f) ->
  _msg (self (perform o s)) = _msg (self s)
  /\ _barrier (self (perform o s)) = _barrier (self s).
Proof.
  intros H.
  assert (Tic : _msg (self (leaves tic s)) = _msg (self s)
                /\ _barrier (self (leaves tic s)) = _barrier (self s)).
  { destruct (tic_leaves s) as (r & sb & B & [[_ ->]|[_ ->]]);
      exact (call_barrier_keeps (emptied s) sb r H B). }
  assert (Toc : _msg (self (leaves toc s)) = _msg (self s)
                /\ _barrier (self (leaves toc s)) = _barrier (self s)).
  { destruct (toc_leaves s)
      as [[_ ->]|(b & r & sb & _ & B & [[_ ->]|[_ [w ->]]])];
      [split; reflexivity| |];
      exact (call_barrier_keeps s sb r H B). }
  assert (Ask : _msg (self (leaves elapsed s)) = _msg (self s)
                /\ _barrier (self (leaves elapsed s)) = _barrier (self s)).
  { destruct (elapsed_leaves s) as [->|[_ ->]]; split; reflexivity. }
  destruct o; cbn [perform]; try (split; reflexivity);
    try exact Tic; try exact Toc; try exact Ask.
  - unfold leaves. rewrite reset_spec. split; reflexivity.
  - rewrite str_leaves. exact Ask.
  - rewrite enter_leaves. exact Tic.
Qed.

End Configuration.

(** The barrier of the sample environment that runs [t.tic(); t.toc()]
    does not assign the timer's configuration. *)
Lemma reenters_keeps_configuration :
  keeps_configuration (I := Calls) reenters.
Proof.
  intros s.
  change (invoke (Interpreter := Calls) reenters s)
    with (if Nat.eqb (ext (world s)) 0 then
            effect_of (bind (tic (I := no_callables))
                         (fun _ => toc (I := no_callables)))
              (with_world (arrive (world s)) s)
          else invoke (Interpreter := no_callables) reenters s).
  destruct (Nat.eqb (ext (world s)) 0); [|split; reflexivity].
  set (s' := with_world (arrive (world s)) s).
  assert (K : forall t : State Exact,
            forall f, _barrier (self t) = Some f ->
                      keeps_configuration (P := Exact)
                        (I := no_callables) f).
  { intros t f _ u. split; reflexivity. }
  destruct (perform_keeps_configuration (I := no_callables) call_tic s' (K s'))
    as [M1 B1].
  destruct (perform_keeps_configuration (I := no_callables) call_toc
              (perform (I := no_callables) call_tic s') (K _))
    as [M2 B2].
  cbn [perform] in M1, B1, M2, B2. unfold leaves in M1, B1, M2, B2.
  change (self s') with (self s) in M1, B1.
  cbn [effect_of timer_left]. unfold bind.
  destruct (tic (I := no_callables) s') as [[u|e] s1]; cbn [snd] in *.
  - split; [rewrite M2; exact M1|rewrite B2; exact B1].
  - split; assumption.
Qed.

(** X2.  No public operation changes the message template or the
    barrier a timer was constructed with: after any run of operations
    they are the constructor's arguments.  The barrier may call the
    timer's methods; it is only taken not to assign the configuration
    itself. *)
Theorem configuration_is_fixed {P : Platform} {I : Interpreter P}
  (msg : option string) (barrier : option callable)
  (barrier_keeps : forall f, barrier = Some f -> keeps_configuration f)
  (n : nat) (w : World P) (ops : list operation) :
  _msg (self (run ops {| self := __init__ msg barrier;
                         ticks := n; world := w |})) = msg
  /\ _barrier (self (run ops {| self := __init__ msg barrier;
                               ticks := n; world := w |})) = barrier.
Proof.
  set (s := {| self := __init__ msg barrier; ticks := n; world := w |}).
  assert (Hm : _msg (self s) = msg) by reflexivity.
  assert (Hb : _barrier (self s) = barrier) by reflexivity.
  clearbody s. revert s Hm Hb.
  induction ops as [|o ops IH]; intros s Hm Hb; [split; assumption|].
  cbn [run fold_left]. change (fold_left _ ops ?x) with (run ops x).
  destruct (perform_keeps_configuration o s) as [Hm' Hb'];
    [rewrite Hb; exact barrier_keeps|].
  apply IH; congruence.
Qed.

Lemma configuration_is_fixed_witness :
  _msg (self (run (I := Calls) session
                (new_timer (Some default_msg) (Some reenters))))
  = Some default_msg
  /\ _barrier (self (run (I := Calls) session
                       (new_timer (Some default_msg) (Some reenters))))
     = Some reenters.
Proof.
  refine (configuration_is_fixed (I := Calls) (Some default_msg)
            (Some reenters) _ 0 quiet session).
  intros f E. injection E as <-. exact reenters_keeps_configuration.
Defined.

(** ** The three states *)

(** X3.  For a timer whose barrier leaves it alone, the state after one
    operation is a function of the state before and of whether the
    barrier raised: [reset] ends idle; [tic] and [__enter__] end
    running, or idle if the barrier raised; [toc] and [__exit__] keep an
    idle timer idle and a stopped one stopped, and take a running one to
    stopped, or leave it running if the barrier raised; every other
    operation keeps the state.  So no operation takes an idle timer to
    stopped. *)
Theorem phase_steps {P : Platform} {I : Interpreter P} (o : operation)
  (s : State P) :
  barrier_hands_off (_barrier (self s)) ->
  phase_of (self (perform o s))
  = next_phase o (phase_of (self s)) (barrier_raises (barrier_state o s))
  /\ (phase_of (self s) = Idle -> phase_of (self (perform o s)) <> Stopped).
Proof.
  intros H.
  assert (Tic : phase_of (self (leaves tic s))
                = if barrier_raises (emptied s) then Idle else Running).
  { destruct (tic_leaves s) as (r & sb & B & [[-> ->]|[R ->]]);
      pose proof (call_barrier_hands_off (emptied s) sb _ H B) as E;
      cbn [emptied with_self self] in E.
    - unfold barrier_raises. rewrite B. cbn [fst].
      unfold phase_of. cbn [sampled self set_start_time start_time end_time].
      rewrite E. reflexivity.
    - rewrite R, E. reflexivity. }
  assert (Toc : phase_of (self (leaves toc s))
                = match phase_of (self s) with
                  | Idle => Idle
                  | Running => if barrier_raises s then Running else Stopped
                  | Stopped => Stopped
                  end).
  { destruct (toc_leaves s)
      as [[Hs ->]|(b & r & sb & Hb & B & [[R ->]|[-> [w ->]]])].
    - unfold phase_of. rewrite Hs. reflexivity.
    - pose proof (call_barrier_hands_off s sb _ H B) as E.
      rewrite R, E. destruct (phase_of (self s)); reflexivity.
    - pose proof (call_barrier_hands_off s sb _ H B) as E.
      unfold barrier_raises. rewrite B. cbn [fst].
      unfold phase_of.
      cbn [stopped self set_end_time start_time end_time].
      rewrite E, Hb. destruct (end_time (self s)); reflexivity. }
  assert (Ask : phase_of (self (leaves elapsed s)) = phase_of (self s)).
  { destruct (elapsed_leaves s) as [->|[_ ->]]; reflexivity. }
  assert (Main : phase_of (self (perform o s))
                 = next_phase o (phase_of (self s))
                     (barrier_raises (barrier_state o s))).
  { destruct o; cbn [perform next_phase barrier_state].
    - unfold leaves. rewrite reset_spec. reflexivity.
    - exact Tic.
    - exact Toc.
    - exact Ask.
    - reflexivity.
    - reflexivity.
    - exact Ask.
    - rewrite str_leaves. exact Ask.
    - rewrite enter_leaves. exact Tic.
    - exact Toc.
    - reflexivity. }
  split; [exact Main|].
  intros Idl. rewrite Main, Idl.
  destruct o; cbn [next_phase]; try discriminate;
    destruct (barrier_raises _); discriminate.
Qed.

Lemma phase_steps_witness :
  phase_of (self (perform (I := Calls) call_toc
                    (running_timer None (Some rendezvous)))) = Stopped
  /\ phase_of (self (perform (I := Calls) call_toc
                       (running_timer None (Some broken)))) = Running
  /\ phase_of (self (perform (I := Calls) call_tic
                       (running_timer None (Some broken)))) = Idle.
Proof.
  split; [|split].
  - exact (proj1 (phase_steps (I := Calls) call_toc
                    (running_timer None (Some rendezvous))
                    rendezvous_barrier)).
  - exact (proj1 (phase_steps (I := Calls) call_toc
                    (running_timer None (Some broken)) broken_barrier)).
  - exact (proj1 (phase_steps (I := Calls) call_tic
                    (running_timer None (Some broken)) broken_barrier)).
Defined.

(** ** Stopping again *)

(** X4.  For a timer whose barrier leaves it alone, a second [toc] on a
    stopped timer keeps [start_time] and puts a later reading of the
    clock in [end_time]; with a non-decreasing clock and samples read
    from it, the elapsed value after the second [toc] is not less than
    after the first. *)
Theorem toc_again {P : Platform} {I : Interpreter P} (s s1 s2 : State P)
  (n : nat) (w : World P) :
  barrier_hands_off (_barrier (self s)) ->
  toc s = (Ok tt, s1) ->
  toc (perform (elsewhere n w) s1) = (Ok tt, s2) ->
  start_time (self s1) = start_time (self s)
  /\ start_time (self s2) = start_time (self s)
  /\ (exists j1 j2,
        ticks s <= j1
        /\ n + S j1 <= j2
        /\ end_time (self s1) = Some (clock j1)
        /\ end_time (self s2) = Some (clock j2))
  /\ (PlatformLaws P -> well_sampled s ->
      exists x1 x2,
        elapsed s1 = (Ok x1, s1)
        /\ elapsed s2 = (Ok x2, s2)
        /\ tle x1 x2).
Proof.
  intros H H1 H2.
  destruct (toc_returns _ _ H1) as (b & sb1 & Hb & B1 & Hself1 & Hticks1).
  pose proof (call_barrier_hands_off s sb1 _ H B1) as E1.
  pose proof (call_barrier_ticks s sb1 _ B1) as T1.
  destruct (toc_returns _ _ H2) as (b' & sb2 & _ & B2 & Hself2 & _).
  assert (Hbar1 : barrier_hands_off
                    (_barrier (self (perform (elsewhere n w) s1))))
    by (cbn [perform self]; rewrite Hself1, E1; exact H).
  pose proof (call_barrier_hands_off _ sb2 _ Hbar1 B2) as E2.
  pose proof (call_barrier_ticks _ sb2 _ B2) as T2.
  cbn [perform self ticks] in E2, T2.
  assert (S1 : start_time (self s1) = Some b)
    by (rewrite Hself1, E1; exact Hb).
  assert (S2 : start_time (self s2) = Some b)
    by (rewrite Hself2, E2; exact S1).
  assert (En1 : end_time (self s1) = Some (clock (ticks sb1)))
    by (rewrite Hself1; reflexivity).
  assert (En2 : end_time (self s2) = Some (clock (ticks sb2)))
    by (rewrite Hself2; reflexivity).
  split; [congruence|]. split; [congruence|]. split.
  - exists (ticks sb1), (ticks sb2). repeat split; try assumption; lia.
  - intros laws W.
    exists (tsub (clock (ticks sb1)) b), (tsub (clock (ticks sb2)) b).
    rewrite !elapsed_spec, S1, S2, En1, En2.
    split; [reflexivity|]. split; [reflexivity|].
    unfold well_sampled in W. rewrite Hb in W.
    assert (Rd : exists i, b = clock i).
    { destruct (end_time (self s)).
      - destruct W as (i & _ & Hi & _). exists i. exact Hi.
      - destruct W as (i & Hi & _). exists i. exact Hi. }
    destruct Rd as [i ->].
    apply (tsub_mono P laws), (clock_mono P laws). lia.
Qed.

Lemma toc_again_witness :
  exists x1 x2 : Z,
    elapsed (snd (toc (I := Calls) (running_timer None (Some rendezvous))))
    = (Ok x1, snd (toc (I := Calls) (running_timer None (Some rendezvous))))
    /\ elapsed (snd (toc (I := Calls) (perform (I := Calls) (elsewhere 4 quiet)
                  (snd (toc (I := Calls)
                          (running_timer None (Some rendezvous)))))))
       = (Ok x2,
          snd (toc (I := Calls) (perform (I := Calls) (elsewhere 4 quiet)
                 (snd (toc (I := Calls)
                         (running_timer None (Some rendezvous)))))))
    /\ (x1 <= x2)%Z.
Proof.
  refine (proj2 (proj2 (proj2 (toc_again (I := Calls)
            (running_timer None (Some rendezvous))
            _ _ 4 quiet rendezvous_barrier eq_refl eq_refl))) exact_laws _).
  exists 0. split; [reflexivity|]. apply Nat.lt_0_succ.
Defined.

(** ** A template that cannot be formatted *)



(** ** Where exceptions come from *)

Section Exceptions.

Context {P : Platform} {I : Interpreter P}.

Lemma tic_raises (s : State P) (e : exn) :
  exception_of (fst (tic s)) = Some e -> from_a_source s e.
Proof.
  rewrite tic_spec. intros H. right. left. exists (emptied s).
  split; [auto|].
  destruct (call_barrier (emptied s)) as [[u|e'] sb]; [discriminate|].
  injection H as <-. reflexivity.
Qed.

Lemma toc_raises (s : State P) (e : exn) :
  exception_of (fst (toc s)) = Some e -> from_a_source s e.
Proof.
  rewrite toc_spec.
  destruct (start_time (self s)) as [b|] eqn:St.
  - destruct (call_barrier s) as [[[]|e'] sb] eqn:B.
    + unfold report.
      destruct (truthy (_msg (self sb))) as [t|] eqn:T; [|discriminate].
      destruct (start_time (self sb)) as [b1|] eqn:S1.
      * destruct (str_format t (tsub (clock (ticks sb)) b1)) as [r|e'] eqn:F;
          [discriminate|].
        intros [= <-]. right. right.
        exists sb, t, (tsub (clock (ticks sb)) b1). auto.
      * intros [= <-]. left. split; [reflexivity|]. right.
        exists sb. auto.
    + intros [= <-]. right. left. exists s. rewrite B. auto.
  - intros [= <-]. left. auto.
Qed.

Lemma elapsed_raises (s : State P) (e : exn) :
  exception_of (fst (elapsed s)) = Some e -> from_a_source s e.
Proof.
  rewrite elapsed_spec.
  destruct (start_time (self s)) as [b|] eqn:St.
  - destruct (end_time (self s)); discriminate.
  - intros [= <-]. left. auto.
Qed.

Lemma str_raises (s : State P) (e : exn) :
  exception_of (fst (__str__ s)) = Some e -> from_a_source s e.
Proof.
  rewrite str_spec, elapsed_spec.
  destruct (start_time (self s)) as [b|]; [|discriminate].
  destruct (end_time (self s)) as [e0|];
    match goal with
    | |- context [str_format default_msg ?x] =>
        destruct (str_format default_msg x) as [r|e'] eqn:R
    end; try discriminate; intros [= <-]; right; right;
    eexists s, _, _; (split; [left; reflexivity|]);
    (split; [right; reflexivity|exact R]).
Qed.

End Exceptions.

(** X6.  [reset], [is_started] and [is_ended] never raise.  An exception
    of any other public operation is
    [RuntimeError("Timer not yet started.")] on a timer that has no
    [start_time], when the operation is called or once the barrier has
    returned; or the exception the barrier raised; or the exception
    [str.format] raised on the timer's template or on the default
    message.  The guarded attribute accesses never fail. *)
Theorem exceptions_have_a_source {P : Platform} {I : Interpreter P}
  (o : operation) (s : State P) :
  raised_by call_reset s = None
  /\ raised_by read_is_started s = None
  /\ raised_by read_is_ended s = None
  /\ (forall e, raised_by o s = Some e -> from_a_source s e).
Proof.
  split; [cbn [raised_by]; rewrite reset_spec; reflexivity|].
  split; [reflexivity|]. split; [reflexivity|].
  intros e. destruct o; cbn [raised_by].
  - rewrite reset_spec. discriminate.
  - apply tic_raises.
  - apply toc_raises.
  - apply elapsed_raises.
  - discriminate.
  - discriminate.
  - apply elapsed_raises.
  - apply str_raises.
  - intros H. apply tic_raises. revert H.
    unfold __enter__, bind, ret. destruct (tic s) as [[u|e'] s1]; auto.
  - apply toc_raises.
  - discriminate.
Qed.

Lemma exceptions_have_a_source_witness :
  from_a_source (I := Calls)
    (running_timer (Some default_msg) (Some resets)) 
    (RuntimeError "Timer not yet started.")
  /\ from_a_source (I := Calls)
       (running_timer (Some default_msg) (Some broken)) MPIError.
Proof.
  split.
  - exact (proj2 (proj2 (proj2 (exceptions_have_a_source (I := Calls)
             call_toc (running_timer (Some default_msg) (Some resets)))))
             (RuntimeError "Timer not yet started.") eq_refl).
  - exact (proj2 (proj2 (proj2 (exceptions_have_a_source (I := Calls)
             call_toc (running_timer (Some default_msg) (Some broken)))))
             MPIError eq_refl).
Defined.

(** ** The status properties *)

(** X7.  [is_started] and [is_ended] follow the timer: both are false
    on a new timer and after [reset].  For a timer whose barrier leaves
    it alone, after a [tic] that returned [is_started] is true and
    [is_ended] false, after a [toc] that returned both are true, and
    after any run of public operations on a new timer [is_ended] is true
    only if [is_started] is. *)
Theorem status_follows_the_timer {P : Platform} {I : Interpreter P}
  (s : State P) :
  (forall msg barrier n w,
     is_started {| self := __init__ msg barrier; ticks := n; world := w |}
     = (Ok false, {| self := __init__ msg barrier; ticks := n; world := w |})
     /\ is_ended {| self := __init__ msg barrier; ticks := n; world := w |}
        = (Ok false,
           {| self := __init__ msg barrier; ticks := n; world := w |}))
  /\ (is_started (leaves reset s) = (Ok false, leaves reset s)
      /\ is_ended (leaves reset s) = (Ok false, leaves reset s))
  /\ (barrier_hands_off (_barrier (self s)) ->
      (forall s1, tic s = (Ok tt, s1) ->
         is_started s1 = (Ok true, s1) /\ is_ended s1 = (Ok false, s1))
      /\ (forall s1, toc s = (Ok tt, s1) ->
            is_started s1 = (Ok true, s1) /\ is_ended s1 = (Ok true, s1)))
  /\ (forall msg barrier n w ops,
        barrier_hands_off barrier ->
        fst (is_ended (run ops {| self := __init__ msg barrier;
                                  ticks := n; world := w |})) = Ok true ->
        fst (is_started (run ops {| self := __init__ msg barrier;
                                    ticks := n; world := w |})) = Ok true).
Proof.
  split; [intros; split; reflexivity|].
  split; [unfold leaves; rewrite reset_spec; split; reflexivity|].
  split; [intros H; split|].
  - intros s1 T.
    destruct (tic_returns_hands_off s s1 H T) as (i & _ & _ & Hs).
    unfold is_started, is_ended, hasattr_start_time, hasattr_end_time.
    rewrite Hs. split; reflexivity.
  - intros s1 T. destruct (toc_returns _ _ T) as (b & sb & Hb & B & Hself & _).
    pose proof (call_barrier_hands_off s sb _ H B) as E.
    unfold is_started, is_ended, hasattr_start_time, hasattr_end_time.
    rewrite Hself. cbn [set_end_time start_time end_time].
    rewrite E, Hb. split; reflexivity.
  - intros msg barrier n w ops H.
    set (s' := run ops _).
    assert (W : well_sampled s')
      by (apply run_well_sampled; [exact H|exact Logic.I]).
    unfold well_sampled in W.
    unfold is_started, is_ended, hasattr_start_time, hasattr_end_time.
    cbn [fst].
    destruct (start_time (self s')), (end_time (self s'));
      cbn [present]; try reflexivity; try discriminate; contradiction.
Qed.

Lemma status_follows_the_timer_witness :
  is_started (snd (toc (I := Calls) (running_timer None (Some rendezvous))))
  = (Ok true, snd (toc (I := Calls) (running_timer None (Some rendezvous))))
  /\ is_ended (snd (toc (I := Calls) (running_timer None (Some rendezvous))))
     = (Ok true,
        snd (toc (I := Calls) (running_timer None (Some rendezvous)))).
Proof.
  exact (proj2 (proj1 (proj2 (proj2 (status_follows_the_timer (I := Calls)
           (running_timer None (Some rendezvous)))))
           rendezvous_barrier) _ eq_refl).
Defined.

(** ** Timing a body *)

(** X8.  For a timer without a barrier and a body that leaves the timer
    alone, the [with] statement ends as the body did, with [start_time]
    the reading of the clock taken on entry and [end_time] the first
    reading after the body; the report, if the template asks for one and
    can be formatted, is appended to what the body left on standard
    output. *)
Theorem with_statement_measures {P : Platform} {I : Interpreter P}
  {A : Type} (body : object -> M A) (s s2 : State P) (outcome : result A) :
  _barrier (self s) = None ->
  body self_object (started s (world s)) = (outcome, s2) ->
  self s2 = self (started s (world s)) ->
  (truthy (_msg (self s)) = None ->
   with_statement body s = (outcome, stopped s2 (world s2)))
  /\ (forall t r,
        truthy (_msg (self s)) = Some t ->
        str_format t (tsub (clock (ticks s2)) (clock (ticks s))) = Ok r ->
        with_statement body s = (outcome, stopped s2 (write r (world s2))))
  /\ start_time (self (stopped s2 (world s2))) = Some (clock (ticks s))
  /\ end_time (self (stopped s2 (world s2))) = Some (clock (ticks s2)).
Proof.
  intros Hbar Hbody Hself.
  assert (Enter : __enter__ s = (Ok self_object, started s (world s))).
  { unfold __enter__, bind, ret. rewrite tic_no_barrier by exact Hbar.
    reflexivity. }
  assert (Hb : start_time (self s2) = Some (clock (ticks s)))
    by (rewrite Hself; reflexivity).
  assert (Hm : _msg (self s2) = _msg (self s))
    by (rewrite Hself; reflexivity).
  assert (Exit : forall raised, __exit__ raised s2 = report s2).
  { intros raised. unfold __exit__.
    assert (Hbar2 : _barrier (self s2) = None)
      by (rewrite Hself; exact Hbar).
    rewrite toc_spec, Hb, call_no_barrier by exact Hbar2. reflexivity. }
  split; [|split; [|split]].
  - intros T. unfold with_statement. rewrite Enter, Hbody.
    destruct outcome; rewrite Exit; unfold report; rewrite Hm, T;
      reflexivity.
  - intros t r T R. unfold with_statement. rewrite Enter, Hbody.
    destruct outcome; rewrite Exit; unfold report; rewrite Hm, T, Hb, R;
      reflexivity.
  - cbn [stopped self set_end_time start_time]. exact Hb.
  - reflexivity.
Qed.

Lemma with_statement_measures_witness :
  with_statement (I := Calls) working_body
    {| self := __init__ (Some default_msg) None; ticks := 0; world := quiet |}
  = (Ok 42,
     {| self := sample_timer (Some default_msg) None
                  (Some 1700000000%Z) (Some 1700000008%Z);
        ticks := 5;
        world := @Build_World Exact
                   ("Elapsed time is 8.000000 seconds." ++ String newline "")
                   0 |}).
Proof.
  exact (proj1 (proj2 (with_statement_measures (I := Calls) working_body
           {| self := __init__ (Some default_msg) None;
              ticks := 0; world := quiet |}
           _ (Ok 42) eq_refl eq_refl eq_refl))
           default_msg
           ("Elapsed time is 8.000000 seconds." ++ String newline "")
           eq_refl eq_refl).
Defined.

(** ** The module's functions *)

(** X9.  Right after the module is loaded [toc()] raises
    [RuntimeError("Timer not yet started.")] and changes nothing.
    [tic()] followed, after any other code, by [toc()] leaves the
    module's timer stopped with the two readings of the clock as samples
    and writes the default message formatted with their difference after
    what is on standard output. *)
Theorem module_functions {P : Platform} {I : Interpreter P} (n : nat)
  (w : World P) :
  simpletimer.toc (simpletimer.loaded n w)
  = (Raise (RuntimeError "Timer not yet started."), simpletimer.loaded n w)
  /\ simpletimer.tic (simpletimer.loaded n w)
     = (Ok tt, started (simpletimer.loaded n w) w)
  /\ (forall m w' r,
        str_format default_msg (tsub (clock (m + S n)) (clock n)) = Ok r ->
        simpletimer.toc
          (perform (elsewhere m w') (started (simpletimer.loaded n w) w))
        = (Ok tt,
           {| self := {| _msg := Some default_msg; _barrier := None;
                         start_time := Some (clock n);
                         end_time := Some (clock (m + S n)) |};
              ticks := S (m + S n);
              world := write r w' |})).
Proof.
  split; [reflexivity|]. split.
  - unfold simpletimer.tic. rewrite tic_no_barrier; reflexivity.
  - intros m w' r R. unfold simpletimer.toc. rewrite toc_spec.
    cbn [perform started simpletimer.loaded self ticks world
         set_start_time start_time].
    rewrite call_no_barrier by reflexivity.
    unfold report. cbn [self set_start_time cleared __init__
      simpletimer._tictoc _msg start_time ticks world].
    change (truthy (Some default_msg)) with (Some default_msg).
    cbv iota. rewrite R. reflexivity.
Qed.

Lemma module_functions_witness :
  simpletimer.toc (P := Exact) (I := Calls)
    (perform (I := Calls) (elsewhere 3 quiet)
       (started (simpletimer.loaded 0 quiet) quiet))
  = (Ok tt,
     {| self := sample_timer (Some default_msg) None
                  (Some 1700000000%Z) (Some 1700000008%Z);
        ticks := 5;
        world := @Build_World Exact
                   ("Elapsed time is 8.000000 seconds." ++ String newline "")
                   0 |}).
Proof.
  exact (proj2 (proj2 (module_functions (P := Exact) (I := Calls) 0 quiet))
           3 quiet
           ("Elapsed time is 8.000000 seconds." ++ String newline "")
           eq_refl).
Defined.
